(** * Ubuntu Image Fetcher: a shallow embedding of [pythonLibraries.py]

    The development follows the class [UbuntuImageFetcher] method by
    method.  Python strings are Rocq [string]s: a character is a code point
    below 256.  The dictionary [downloaded_hashes] and the entries of the
    download directory are [gmap]s keyed by strings.  Everything the class
    obtains from outside the file (the standard library, [requests], the
    disk) is either written out below from its documented behaviour or
    taken as a parameter: the type class [PyLib] collects the library
    functions, the record [Env] the answers of the network and of the
    disk, a [Printer] the answers of the console. *)

From Stdlib Require Import ZArith Ascii String List.
From stdpp Require Import gmap strings list fin_maps pretty.

Local Open Scope string_scope.

(** ** Python [str] operations used by the class *)

Module PyStr.

Definition code (c : ascii) : N := N_of_ascii c.

Definition between (lo hi : N) (c : ascii) : bool :=
  ((lo <=? code c) && (code c <=? hi))%N.

(** [c in s] for a one-character [c]. *)
Fixpoint contains (c : ascii) (s : string) : bool :=
  match s with
  | EmptyString => false
  | String d r => if Ascii.eqb c d then true else contains c r
  end.

(** [str.lower] on one character: A-Z, and the upper-case letters of
    Latin-1 (0xC0-0xDE without the multiplication sign 0xD7). *)
Definition lower_char (c : ascii) : ascii :=
  if between 65 90 c || (between 192 222 c && negb (code c =? 215)%N)
  then ascii_of_N (code c + 32) else c.

Fixpoint lower (s : string) : string :=
  match s with
  | EmptyString => EmptyString
  | String c r => String (lower_char c) (lower r)
  end.

(** [s.startswith(p)]. *)
Definition startswith (p s : string) : bool := String.prefix p s.

(** [str.isspace] on one character (what [str.strip()] removes). *)
Definition isspace (c : ascii) : bool :=
  between 9 13 c || between 28 32 c || (code c =? 133)%N || (code c =? 160)%N.

Fixpoint lstrip (s : string) : string :=
  match s with
  | EmptyString => EmptyString
  | String c r => if isspace c then lstrip r else s
  end.

Fixpoint rstrip (s : string) : string :=
  match s with
  | EmptyString => EmptyString
  | String c r =>
      match rstrip r with
      | EmptyString => if isspace c then EmptyString else String c EmptyString
      | r' => String c r'
      end
  end.

Definition strip (s : string) : string := rstrip (lstrip s).

(** [s.split(sep)] for a one-character separator: never the empty list. *)
Fixpoint split (sep : ascii) (s : string) : list string :=
  match s with
  | EmptyString => [EmptyString]
  | String c r =>
      if Ascii.eqb c sep then EmptyString :: split sep r
      else match split sep r with
           | h :: t => String c h :: t
           | [] => [String c EmptyString]
           end
  end.

(** [s.rfind(c)]: the index of the last occurrence, or -1. *)
Fixpoint rfind (c : ascii) (s : string) : Z :=
  match s with
  | EmptyString => (-1)%Z
  | String d r =>
      let i := rfind c r in
      if (0 <=? i)%Z then (i + 1)%Z
      else if Ascii.eqb c d then 0%Z else (-1)%Z
  end.

(** The slices [s[:i]] and [s[i:]] for [0 <= i]. *)
Fixpoint take (n : nat) (s : string) : string :=
  match n, s with
  | S n', String c r => String c (take n' r)
  | _, _ => EmptyString
  end.

Fixpoint drop (n : nat) (s : string) : string :=
  match n, s with
  | S n', String _ r => drop n' r
  | _, _ => s
  end.

Definition len (s : string) : Z := Z.of_nat (String.length s).

(** [''.join(f(c) for c in s)] with [f] returning one character. *)
Fixpoint map_chars (f : ascii -> ascii) (s : string) : string :=
  match s with
  | EmptyString => EmptyString
  | String c r => String (f c) (map_chars f r)
  end.

Fixpoint chars (s : string) : list ascii :=
  match s with
  | EmptyString => []
  | String c r => c :: chars r
  end.

End PyStr.

Import PyStr.

(** ** Exceptions and results *)

(** The exception classes that [fetch_single_image] tells apart, in the
    order of its [except] clauses; [OtherException] is any other subclass
    of [Exception] (an [OSError] of [open], for one). *)
Inductive exn : Type :=
| Timeout (msg : string)
| ConnectionError (msg : string)
| HTTPError (status_code : Z) (reason : string)
| ValueError (msg : string)
| OtherException (msg : string).

Inductive result (A : Type) : Type :=
| Ok (a : A)
| Raise (e : exn).
Arguments Ok {A} a.
Arguments Raise {A} e.

(** ** Library functions taken as parameters *)

Class PyLib : Type := {
  (** [urlparse(url).path]; [urlparse] raises [ValueError] on some inputs. *)
  urlparse_path : string -> result string;
  (** [urllib.parse.unquote]. *)
  unquote : string -> string;
  (** [int(s)], which raises [ValueError] when [s] is no integer literal. *)
  py_int : string -> result Z;
  (** [hashlib.sha256(content).hexdigest()]. *)
  sha256_hexdigest : string -> string;
  (** [f"{n / (1024 * 1024):.1f}"], a float formatted to one decimal; the
      division raises [OverflowError] when the quotient is too large for a
      float. *)
  format_mb : Z -> result string
}.

(** [os.path.basename(p)]: [p[p.rfind('/') + 1:]]. *)
Definition basename (p : string) : string :=
  drop (Z.to_nat (rfind "/" p + 1)) p.

(** ** The class [UbuntuImageFetcher] *)

Definition safe_chars : string :=
  "abcdefghijklmnopqrstuvwxyzABCDEFGHIJKLMNOPQRSTUVWXYZ0123456789.-_".

(** [self.max_file_size] and [self.timeout], set in [__init__]. *)
Definition max_file_size : Z := 50 * 1024 * 1024.
Definition timeout : Z := 10.

(** The dictionary literal [extensions], in source order. *)
Definition extensions : list (string * string) :=
  [ ("image/jpeg", ".jpg"); ("image/png", ".png"); ("image/gif", ".gif");
    ("image/webp", ".webp"); ("image/bmp", ".bmp"); ("image/svg+xml", ".svg") ].

(** [d.get(key, default)] on a dictionary literal. *)
Fixpoint dict_get (d : list (string * string)) (key default : string) : string :=
  match d with
  | [] => default
  | (k, v) :: d' => if String.eqb k key then v else dict_get d' key default
  end.

Definition _get_extension_from_content_type (content_type : option string) : string :=
  match content_type with
  | None => ".jpg"
  | Some EmptyString => ".jpg"
  | Some ct => dict_get extensions (lower ct) ".jpg"
  end.

(** The last statement of [get_safe_filename]: every character outside
    [safe_chars] becomes an underscore. *)
Definition sanitize (filename : string) : string :=
  map_chars (fun c => if contains c safe_chars then c else "_"%char) filename.

Section Fetcher.
Context `{PyLib}.

(** The candidate of [get_safe_filename] before it is sanitized: the
    decoded last segment of the path, or the fallback name. *)
Definition candidate_filename (path : string) (content_type : option string)
  : string :=
  let filename := unquote (basename path) in
  if String.eqb filename "" || negb (contains "." filename)
  then "downloaded_image" ++ _get_extension_from_content_type content_type
  else filename.

Definition get_safe_filename (url : string) (content_type : option string)
  : result string :=
  match urlparse_path url with
  | Raise e => Raise e
  | Ok path => Ok (sanitize (candidate_filename path content_type))
  end.

End Fetcher.

(** ** The outside world *)

(** What the class reads of a [requests.Response]: the status line, the two
    headers it looks up, and the body, whose download ([response.content]
    on a streamed response) may itself raise. *)
Record Response : Type := {
  status_code : Z;
  reason : string;
  header_content_type : option string;
  header_content_length : option string;
  content : result string
}.

(** What [open(filepath, 'wb')] followed by [f.write(content)] does. *)
Inductive write_outcome : Type :=
| Written
| OpenFailed (e : exn)
| WriteFailed (partial : string) (e : exn).

(** The answers of the network and of the disk.  Both may depend on the
    requests made so far, so one URL can be answered differently each time. *)
Record Env : Type := {
  requests_get : list string -> string -> result Response;
  open_write : list string -> string -> string -> write_outcome
}.

(** The state one run threads through its calls. *)
Record World : Type := {
  downloaded_hashes : gmap string string;   (* self.downloaded_hashes *)
  files : gmap string string;               (* entries of self.download_dir *)
  stdout : list string;                     (* the lines printed so far *)
  requested : list string                   (* the URLs requested so far *)
}.

Definition set_hashes (d : gmap string string) (w : World) : World :=
  {| downloaded_hashes := d; files := files w;
     stdout := stdout w; requested := requested w |}.

Definition set_files (fs : gmap string string) (w : World) : World :=
  {| downloaded_hashes := downloaded_hashes w; files := fs;
     stdout := stdout w; requested := requested w |}.

Definition add_line (line : string) (w : World) : World :=
  {| downloaded_hashes := downloaded_hashes w; files := files w;
     stdout := stdout w ++ [line]; requested := requested w |}.

Definition add_request (url : string) (w : World) : World :=
  {| downloaded_hashes := downloaded_hashes w; files := files w;
     stdout := stdout w; requested := requested w ++ [url] |}.

(** A fresh fetcher in a download directory with the given entries. *)
Definition init (fs : gmap string string) : World :=
  {| downloaded_hashes := ∅; files := fs; stdout := []; requested := [] |}.

(** ** A monad for the method bodies: state, exceptions, divergence *)

(** [None] is a computation that does not return (the [while True] loop of
    [get_unique_filename] is the only source); [Raise] is an exception on
    its way to the nearest [except]. *)
Definition M (A : Type) : Type := World -> option (result A * World).

Definition ret {A} (a : A) : M A := fun w => Some (Ok a, w).

Definition raise {A} (e : exn) : M A := fun w => Some (Raise e, w).

Definition bind {A B} (m : M A) (k : A -> M B) : M B :=
  fun w =>
    match m w with
    | None => None
    | Some (Raise e, w') => Some (Raise e, w')
    | Some (Ok a, w') => k a w'
    end.

Definition lift_result {A} (r : result A) : M A := fun w => Some (r, w).

Definition lift_option {A} (o : option A) : M A :=
  fun w => match o with Some a => Some (Ok a, w) | None => None end.

(** [print(line)] on a console that takes every line; the console that
    can refuse one comes with [Console.print] below. *)
Definition print (line : string) : M unit := fun w => Some (Ok tt, add_line line w).

Declare Scope py_scope.
Delimit Scope py_scope with py.
Notation "'let*' x ':=' m 'in' k" := (bind m (fun x => k))
  (at level 10, x name, m at level 100, k at level 200, only parsing) : py_scope.
Notation "m '>>' k" := (bind m (fun _ => k))
  (at level 100, k at level 200, right associativity, only parsing) : py_scope.

(** ** Paths below the download directory *)

(** [PurePath(p).name]: the last component that is neither empty nor ".". *)
Definition path_name_of (p : string) : string :=
  List.last (List.filter (fun x => negb (String.eqb x "") && negb (String.eqb x "."))
               (split "/" p)) "".

(** [PurePath.suffix] and [PurePath.stem] of a name (pathlib up to
    Python 3.13): the name splits at its last dot unless that dot is its
    first or its last character. *)
Definition has_suffix (name : string) : bool :=
  let i := rfind "." name in ((0 <? i) && (i <? len name - 1))%Z.

Definition path_suffix (name : string) : string :=
  if has_suffix name then drop (Z.to_nat (rfind "." name)) name else "".

Definition path_stem (name : string) : string :=
  if has_suffix name then take (Z.to_nat (rfind "." name)) name else name.

Section Paths.
(** [self.download_dir], as given to the constructor. *)
Variable download_dir : string.

(** The [name] of [self.download_dir / filename] for a [filename] without
    a path separator (all the class ever joins: [get_safe_filename]
    leaves no "/"): pathlib drops an empty or "." component, so the
    joined path is then the directory itself. *)
Definition joined_name (filename : string) : string :=
  if String.eqb filename "" || String.eqb filename "."
  then path_name_of download_dir else filename.

(** [(self.download_dir / filename).exists()], again for a [filename]
    without separator: the directory itself and its parent exist (the
    constructor creates the directory), anything else exists when it is
    an entry of the directory.  A name too long for the file system is
    no entry; where [exists] raises [OSError] for such a name instead of
    returning false, that error goes to the [except Exception] clause of
    [fetch_single_image], as the error of [open] does on a disk that
    refuses the name. *)
Definition path_exists (fs : gmap string string) (filename : string) : bool :=
  if String.eqb filename "" || String.eqb filename "." || String.eqb filename ".."
  then true else bool_decide (is_Some (fs !! filename)).

(** [str(self.download_dir / filename)] for a plain [filename]. *)
Definition path_str (filename : string) : string :=
  download_dir ++ "/" ++ filename.

(** The probe of the loop at one value of [counter]. *)
Definition new_filename (stem suffix : string) (counter : nat) : string :=
  stem ++ "_" ++ pretty counter ++ suffix.

(** The [while True] loop of [get_unique_filename], run for at most
    [fuel] iterations. *)
Fixpoint probe (fs : gmap string string) (stem suffix : string)
               (fuel counter : nat) : option string :=
  match fuel with
  | O => None
  | S fuel' =>
      if negb (path_exists fs (new_filename stem suffix counter))
      then Some (new_filename stem suffix counter)
      else probe fs stem suffix fuel' (S counter)
  end.

Definition get_unique_filename_fuel (fuel : nat) (fs : gmap string string)
                                    (filename : string) : option string :=
  if negb (path_exists fs filename) then Some filename
  else
    let stem := path_stem (joined_name filename) in
    let suffix := path_suffix (joined_name filename) in
    probe fs stem suffix fuel 1.

(** The method itself: the loop gets one iteration more than the
    directory has entries, which [get_unique_filename_returns] shows to
    be enough, so [None] never comes out. *)
Definition get_unique_filename (fs : gmap string string) (filename : string)
  : option string :=
  get_unique_filename_fuel (S (size fs)) fs filename.

End Paths.

Section Methods.
Context `{PyLib}.
Variable download_dir : string.
Variable env : Env.

Local Open Scope py_scope.

Definition calculate_file_hash (content : string) : string :=
  sha256_hexdigest content.

Definition is_duplicate_content (content filename : string) : M bool :=
  fun w =>
    let file_hash := calculate_file_hash content in
    match downloaded_hashes w !! file_hash with
    | Some existing_file =>
        (print ("  Content identical to already downloaded: " ++ existing_file) >>
         ret true) w
    | None =>
        ret false (set_hashes (<[file_hash := filename]> (downloaded_hashes w)) w)
    end.

(** The two [ValueError]s that [validate_image_response] raises itself;
    [size_mb] is the declared size in MiB, already formatted. *)
Definition invalid_content_type (content_type : string) : exn :=
  ValueError ("URL does not point to an image. Content-Type: " ++ content_type).

Definition payload_too_large (size_mb : string) : exn :=
  ValueError ("Image too large: " ++ size_mb ++ "MB (max: "
              ++ pretty (max_file_size / (1024 * 1024))%Z ++ "MB)").

Definition validate_image_response (response : Response) : result string :=
  let content_type :=
    lower (match header_content_type response with Some v => v | None => "" end) in
  if negb (startswith "image/" content_type)
  then Raise (invalid_content_type content_type)
  else
    match header_content_length response with
    | None => Ok content_type
    | Some EmptyString => Ok content_type
    | Some content_length =>
        match py_int content_length with
        | Raise e => Raise e
        | Ok n =>
            if (n >? max_file_size)%Z
            then match format_mb n with
                 | Raise e => Raise e
                 | Ok size_mb => Raise (payload_too_large size_mb)
                 end
            else Ok content_type
        end
    end.

(** [requests.get(url, timeout=self.timeout, stream=True)]. *)
Definition get (url : string) : M Response :=
  fun w => Some (requests_get env (requested w) url, add_request url w).

(** [response.raise_for_status()]: an [HTTPError] for 4xx and 5xx. *)
Definition raise_for_status (response : Response) : M unit :=
  if ((400 <=? status_code response) && (status_code response <? 600))%Z
  then raise (HTTPError (status_code response) (reason response))
  else ret tt.

(** [with open(filepath, 'wb') as f: f.write(content)]. *)
Definition save (filename content : string) : M unit :=
  fun w =>
    match open_write env (requested w) filename content with
    | Written => Some (Ok tt, set_files (<[filename := content]> (files w)) w)
    | OpenFailed e => Some (Raise e, w)
    | WriteFailed partial e =>
        Some (Raise e, set_files (<[filename := partial]> (files w)) w)
    end.

(** The body of the [try] block. *)
Definition fetch_body (url : string) : M bool :=
  print (" Connecting to: " ++ url) >>
  let* response := get url in
  raise_for_status response >>
  let* content_type := lift_result (validate_image_response response) in
  let* filename := lift_result (get_safe_filename url (Some content_type)) in
  let* content := lift_result (content response) in
  let* duplicate := is_duplicate_content content filename in
  if duplicate : bool then ret false
  else
    let* unique_filename :=
      (fun w => lift_option (get_unique_filename download_dir (files w) filename) w) in
    save unique_filename content >>
    print ("✓ Successfully fetched: " ++ filename) >>
    print ("✓ Image saved to " ++ path_str download_dir unique_filename) >>
    print "" >>
    ret true.

(** The [except] clauses, each followed by the common [print()]. *)
Definition handler (url : string) (e : exn) : M unit :=
  match e with
  | Timeout _ =>
      print (" Connection timeout for: " ++ url) >>
      print "   The community server didn't respond in time. Please try again later."
  | ConnectionError _ =>
      print ("  Cannot connect to: " ++ url) >>
      print "   Please check your internet connection and the URL."
  | HTTPError code why =>
      print ("  Server responded with error for: " ++ url) >>
      print ("   HTTP " ++ pretty code ++ ": " ++ why)
  | ValueError msg =>
      print ("  Invalid image at: " ++ url) >>
      print ("   " ++ msg)
  | OtherException msg =>
      print ("  Unexpected error with: " ++ url) >>
      print ("   " ++ msg)
  end >>
  print "".

Definition fetch_single_image (url : string) : M bool :=
  fun w =>
    match fetch_body url w with
    | None => None
    | Some (Ok b, w') => Some (Ok b, w')
    | Some (Raise e, w') => (handler url e >> ret false) w'
    end.

(** The [for] loop of [fetch_images] over the remaining URLs. *)
Fixpoint fetch_loop (urls : list string) (successful : Z) : M Z :=
  match urls with
  | [] => ret successful
  | url :: rest =>
      let url := strip url in
      if String.eqb url "" then fetch_loop rest successful
      else
        let* ok := fetch_single_image url in
        fetch_loop rest (if ok : bool then successful + 1 else successful)%Z
  end.

(** [urls] is a string ([inl]) or a list of strings ([inr]). *)
Definition fetch_images (urls : string + list string) : M (Z * Z) :=
  let urls :=
    match urls with
    | inl s => List.map strip (split "," s)
    | inr l => l
    end in
  let total := Z.of_nat (List.length urls) in
  let* successful := fetch_loop urls 0%Z in
  ret (successful, total).

End Methods.

(** ** A reference instance of the library functions

    Used to run the class on concrete inputs.  Each function follows the
    CPython implementation on the domain its comment names; the theorems
    about the class hold for every instance of [PyLib]. *)

Module CPython.

(** *** [hashlib.sha256]: FIPS 180-4 over 32-bit words held in [Z] *)

Module SHA256.
Local Open Scope Z_scope.

Definition w32 (x : Z) : Z := x mod 2 ^ 32.
Definition add32 (x y : Z) : Z := w32 (x + y).
Definition rotr (n x : Z) : Z := Z.lor (Z.shiftr x n) (w32 (Z.shiftl x (32 - n))).
Definition Ch (x y z : Z) : Z :=
  Z.lxor (Z.land x y) (Z.land (Z.lxor x (2 ^ 32 - 1)) z).
Definition Maj (x y z : Z) : Z :=
  Z.lxor (Z.lxor (Z.land x y) (Z.land x z)) (Z.land y z).
Definition Sigma0 (x : Z) : Z := Z.lxor (Z.lxor (rotr 2 x) (rotr 13 x)) (rotr 22 x).
Definition Sigma1 (x : Z) : Z := Z.lxor (Z.lxor (rotr 6 x) (rotr 11 x)) (rotr 25 x).
Definition sigma0 (x : Z) : Z := Z.lxor (Z.lxor (rotr 7 x) (rotr 18 x)) (Z.shiftr x 3).
Definition sigma1 (x : Z) : Z := Z.lxor (Z.lxor (rotr 17 x) (rotr 19 x)) (Z.shiftr x 10).

(** The constants are fractional parts of roots of the first primes,
    computed here rather than tabulated. *)
Definition is_prime (n : Z) : bool :=
  List.forallb (fun d => negb (n mod Z.of_nat d =? 0))
               (List.seq 2 (Z.to_nat n - 2)).

Definition primes : list Z :=
  List.filter is_prime (List.map Z.of_nat (List.seq 2 310)).

(** The integer cube root, one bit at a time from bit 40 down. *)
Definition cube_root (n : Z) : Z :=
  List.fold_left
    (fun r b => let r' := r + 2 ^ Z.of_nat b in
                if r' * r' * r' <=? n then r' else r)
    (List.rev (List.seq 0 41)) 0.

(** First 32 bits of the fractional parts of the cube roots of the first
    64 primes. *)
Definition K : list Z :=
  Eval vm_compute in List.map (fun p => w32 (cube_root (p * 2 ^ 96))) primes.

(** First 32 bits of the fractional parts of the square roots of the
    first 8 primes. *)
Definition H0 : list Z :=
  Eval vm_compute in
    List.map (fun p => w32 (Z.sqrt (p * 2 ^ 64))) (List.firstn 8 primes).

Definition bytes_of (s : string) : list Z :=
  List.map (fun c => Z.of_N (N_of_ascii c)) (chars s).

(** The message, the byte 0x80, zero bytes up to 56 modulo 64, and the
    bit length as eight big-endian bytes. *)
Definition pad (msg : list Z) : list Z :=
  let l := Z.of_nat (List.length msg) in
  let zeros := Z.to_nat ((55 - l) mod 64) in
  let bits := 8 * l in
  msg ++ [0x80] ++ List.repeat 0 zeros
      ++ List.map (fun i => Z.shiftr bits (8 * i) mod 256) [7; 6; 5; 4; 3; 2; 1; 0].

(** Big-endian words of a byte list whose length is a multiple of 4. *)
Fixpoint words (fuel : nat) (bs : list Z) : list Z :=
  match fuel, bs with
  | S fuel', a :: b :: c :: d :: r =>
      (Z.shiftl a 24 + Z.shiftl b 16 + Z.shiftl c 8 + d) :: words fuel' r
  | _, _ => []
  end.

(** The message schedule, newest word first. *)
Fixpoint extend (n : nat) (w : list Z) : list Z :=
  match n with
  | O => w
  | S n' =>
      let x := add32 (add32 (sigma1 (List.nth 1 w 0)) (List.nth 6 w 0))
                     (add32 (sigma0 (List.nth 14 w 0)) (List.nth 15 w 0)) in
      extend n' (x :: w)
  end.

Definition schedule (block : list Z) : list Z :=
  List.rev (extend 48 (List.rev block)).

Definition round (st : list Z) (kw : Z * Z) : list Z :=
  match st with
  | [a; b; c; d; e; f; g; h] =>
      let t1 := add32 (add32 (add32 h (Sigma1 e)) (add32 (Ch e f g) (fst kw))) (snd kw) in
      let t2 := add32 (Sigma0 a) (Maj a b c) in
      [add32 t1 t2; a; b; c; add32 d t1; e; f; g]
  | _ => st
  end.

Definition compress (h : list Z) (block : list Z) : list Z :=
  let st := List.fold_left round (List.combine K (schedule block)) h in
  List.map (fun p => add32 (fst p) (snd p)) (List.combine h st).

Fixpoint blocks (fuel : nat) (ws : list Z) (h : list Z) : list Z :=
  match fuel, ws with
  | S fuel', _ :: _ => blocks fuel' (List.skipn 16 ws) (compress h (List.firstn 16 ws))
  | _, _ => h
  end.

Definition hex_digit (d : Z) : ascii :=
  ascii_of_N (Z.to_N (if d <? 10 then 48 + d else 87 + d)).

Definition hex32 (x : Z) : string :=
  List.fold_right (fun i acc => String (hex_digit (Z.shiftr x (4 * i) mod 16)) acc)
                  "" [7; 6; 5; 4; 3; 2; 1; 0].

Definition hexdigest (content : string) : string :=
  let ws := let p := pad (bytes_of content) in words (List.length p) p in
  String.concat "" (List.map hex32 (blocks (List.length ws) ws H0)).

End SHA256.

(** *** [urllib.parse.urlparse(url).path], after CPython 3.11

    Exact on the strings of this development when the host has no
    bracketed address (for one with balanced brackets Python goes on to
    check the address, which is not modelled). *)

(** [s] cut before its first character satisfying [p]: the part before
    it, and the rest from that character on (empty when there is none). *)
Fixpoint break (p : ascii -> bool) (s : string) : string * string :=
  match s with
  | EmptyString => ("", "")
  | String c r =>
      if p c then ("", s)
      else let '(a, b) := break p r in (String c a, b)
  end.

Fixpoint all_chars (p : ascii -> bool) (s : string) : bool :=
  match s with
  | EmptyString => true
  | String c r => p c && all_chars p r
  end.

Fixpoint remove_chars (p : ascii -> bool) (s : string) : string :=
  match s with
  | EmptyString => EmptyString
  | String c r => if p c then remove_chars p r else String c (remove_chars p r)
  end.

(** [url.lstrip(_WHATWG_C0_CONTROL_OR_SPACE)]. *)
Fixpoint lstrip_c0 (s : string) : string :=
  match s with
  | EmptyString => EmptyString
  | String c r => if between 0 32 c then lstrip_c0 r else s
  end.

Definition scheme_chars : string :=
  "abcdefghijklmnopqrstuvwxyzABCDEFGHIJKLMNOPQRSTUVWXYZ0123456789+-.".

Definition uses_params : list string :=
  [ ""; "ftp"; "hdl"; "prospero"; "http"; "imap"; "https"; "shttp"; "rtsp";
    "rtspu"; "sip"; "sips"; "mms"; "sftp"; "tel" ].

(** The scheme, lower-cased, and what follows its colon. *)
Definition split_scheme (url : string) : string * string :=
  match break (Ascii.eqb ":") url with
  | (String c pre, String _ rest) =>
      if (between 65 90 c || between 97 122 c)
         && all_chars (fun d => contains d scheme_chars) (String c pre)
      then (lower (String c pre), rest)
      else ("", url)
  | _ => ("", url)
  end.

(** [urlsplit]: the scheme and the path. *)
Definition urlsplit (url : string) : result (string * string) :=
  let url := lstrip_c0 url in
  let url := remove_chars (fun c => contains c (String "009" (String "013" (String "010" "")))) url in
  let '(scheme, url) := split_scheme url in
  let '(netloc, url) :=
    if startswith "//" url
    then break (fun c => contains c "/?#") (drop 2 url)
    else ("", url) in
  if (contains "[" netloc && negb (contains "]" netloc))
     || (contains "]" netloc && negb (contains "[" netloc))
  then Raise (ValueError "Invalid IPv6 URL")
  else
    let url := fst (break (Ascii.eqb "#") url) in
    let url := fst (break (Ascii.eqb "?") url) in
    Ok (scheme, url).

(** The first component of [_splitparams(url)]. *)
Definition splitparams (url : string) : string :=
  let j := Z.to_nat (Z.max 0 (rfind "/" url)) in
  take j url ++ fst (break (Ascii.eqb ";") (drop j url)).

Definition urlparse_path (url : string) : result string :=
  match urlsplit url with
  | Raise e => Raise e
  | Ok (scheme, path) =>
      if existsb (String.eqb scheme) uses_params && contains ";" path
      then Ok (splitparams path) else Ok path
  end.

(** *** [urllib.parse.unquote]

    Exact when every escape of the string denotes an ASCII character
    (%00 to %7F); an escape from %80 on, which Python decodes as part of a
    UTF-8 sequence, is left as it is written. *)

Definition hex_value (c : ascii) : option N :=
  if between 48 57 c then Some (code c - 48)%N
  else if between 97 102 c then Some (code c - 87)%N
  else if between 65 70 c then Some (code c - 55)%N
  else None.

Definition escape (a b : ascii) : option ascii :=
  match hex_value a, hex_value b with
  | Some x, Some y => if (16 * x + y <? 128)%N then Some (ascii_of_N (16 * x + y)) else None
  | _, _ => None
  end.

Fixpoint unquote (s : string) : string :=
  match s with
  | EmptyString => EmptyString
  | String c t =>
      match t with
      | String a (String b r) =>
          if Ascii.eqb c "%" then
            match escape a b with
            | Some d => String d (unquote r)
            | None => String c (unquote t)
            end
          else String c (unquote t)
      | _ => String c (unquote t)
      end
  end.

(** *** [int(s)] for a string, base 10 *)

(** What [int] strips: ASCII white space, and the Latin-1 spaces. *)
Definition int_space (c : ascii) : bool :=
  between 9 13 c || (code c =? 32)%N || (code c =? 133)%N || (code c =? 160)%N.

Fixpoint int_lstrip (s : string) : string :=
  match s with
  | EmptyString => EmptyString
  | String c r => if int_space c then int_lstrip r else s
  end.

Fixpoint int_rstrip (s : string) : string :=
  match s with
  | EmptyString => EmptyString
  | String c r =>
      match int_rstrip r with
      | EmptyString => if int_space c then EmptyString else String c EmptyString
      | r' => String c r'
      end
  end.

Definition is_digit (c : ascii) : bool := between 48 57 c.

(** Digits, single underscores allowed between two of them: the value
    and the number of digits. *)
Fixpoint digits (s : string) (acc : Z) (count : nat) : option (Z * nat) :=
  match s with
  | EmptyString => Some (acc, count)
  | String c r =>
      if is_digit c then digits r (10 * acc + Z.of_N (code c - 48))%Z (S count)
      else if Ascii.eqb c "_" then
        match r with
        | String d _ => if is_digit d then digits r acc count else None
        | EmptyString => None
        end
      else None
  end.

Definition unsigned_literal (s : string) : option Z :=
  match s with
  | String c _ =>
      if is_digit c then
        match digits s 0%Z O with
        | Some (v, count) => if (4300 <? count)%nat then None else Some v
        | None => None
        end
      else None
  | EmptyString => None
  end.

Definition literal (s : string) : option Z :=
  match int_rstrip (int_lstrip s) with
  | String "+" r => unsigned_literal r
  | String "-" r => option_map Z.opp (unsigned_literal r)
  | r => unsigned_literal r
  end.

(** The message quotes the argument with [repr], written here for a
    string of printable characters without quote or backslash. *)
Definition py_int (s : string) : result Z :=
  match literal s with
  | Some v => Ok v
  | None => Raise (ValueError ("invalid literal for int() with base 10: '" ++ s ++ "'"))
  end.

(** *** [f"{n / (1024 * 1024):.1f}"]

    The division of two integers gives the float nearest to the quotient,
    a tie going to the even mantissa, and raises [OverflowError] when that
    is 2^1024 or more; the format rounds the float to one decimal, a tie
    to the even digit. *)
Definition round_half_even (a b : Z) : Z :=
  let q := (a / b)%Z in
  let r := (a mod b)%Z in
  if (2 * r <? b)%Z then q
  else if (b <? 2 * r)%Z then (q + 1)%Z
  else if Z.even q then q else (q + 1)%Z.

(** The integer nearest to [n] that has at most 53 significant bits. *)
Definition to_53_bits (n : Z) : Z :=
  let bits := (Z.log2 n + 1)%Z in
  if (bits <=? 53)%Z then n
  else (round_half_even n (2 ^ (bits - 53)) * 2 ^ (bits - 53))%Z.

Definition format_mb (n : Z) : result string :=
  let m := to_53_bits (Z.abs n) in
  if (2 ^ 1044 <=? m)%Z
  then Raise (OtherException "integer division result too large for a float")
  else
    let t := round_half_even (10 * m) (1024 * 1024) in
    Ok ((if (n <? 0)%Z then "-" else "")
          ++ pretty (t / 10)%Z ++ "." ++ pretty (t mod 10)%Z).

Definition lib : PyLib :=
  Build_PyLib urlparse_path unquote py_int SHA256.hexdigest format_mb.

End CPython.


(** The characters that a file name must not contain: the separators of
    POSIX and Windows paths and the control characters. *)
Definition unsafe_char (c : ascii) : bool :=
  Ascii.eqb c "/" || Ascii.eqb c "\" || between 0 31 c || (code c =? 127)%N.

(** The entries of a batch that are fetched: those not empty once stripped. *)
Definition attempted (urls : list string) : list string :=
  List.filter (fun url => negb (String.eqb url "")) (List.map strip urls).

(** A string that does not begin with white space. *)
Definition left_clean (s : string) : Prop :=
  match s with
  | EmptyString => True
  | String c _ => isspace c = false
  end.

(** A name without path separator. *)
Definition plain (name : string) : Prop := ~ In "/"%char (chars name).

(** The number of commas of a string. *)
Definition commas (s : string) : nat :=
  List.length (List.filter (Ascii.eqb ",") (chars s)).

Section Runs.
Context `{PyLib}.
Variable download_dir : string.
Variable env : Env.

(** The length a response declares: none when the header is absent or
    empty, else what [int] makes of it. *)
Definition declared_length (response : Response) : result (option Z) :=
  match header_content_length response with
  | None => Ok None
  | Some EmptyString => Ok None
  | Some content_length =>
      match py_int content_length with
      | Ok n => Ok (Some n)
      | Raise e => Raise e
      end
  end.

(** The world once the request for [url] has been announced and made. *)
Definition connected (url : string) (w : World) : World :=
  add_request url (add_line (" Connecting to: " ++ url) w).

(** The world once a new payload has been entered into the index. *)
Definition registered (url payload filename : string) (w : World) : World :=
  set_hashes (<[calculate_file_hash payload := filename]> (downloaded_hashes w))
             (connected url w).

Definition duplicate_line (existing_file : string) : string :=
  "  Content identical to already downloaded: " ++ existing_file.

(** In world [w] the request for [url] is answered by an image whose
    body, [payload], arrives whole; [filename] is the name derived for it.
    These are the fetches that reach [is_duplicate_content]. *)
Definition downloads (url : string) (w : World) (payload filename : string) : Prop :=
  exists response content_type,
    requests_get env (requested w) url = Ok response
    /\ ((400 <=? status_code response) && (status_code response <? 600))%Z = false
    /\ validate_image_response response = Ok content_type
    /\ get_safe_filename url (Some content_type) = Ok filename
    /\ content response = Ok payload.

(** [later w w']: [w'] is reached from [w] by some fetches of one run. *)
Inductive later (w : World) : World -> Prop :=
| later_refl : later w w
| later_step url w1 ok w2 :
    later w w1 ->
    fetch_single_image download_dir env url w1 = Some (Ok ok, w2) ->
    later w w2.

End Runs.

(** ** A console that can refuse a line

    The methods above are the class on a console that takes every line.
    The [print] of Python can raise: [UnicodeEncodeError], a [ValueError],
    for a character outside the encoding of the console, [OSError] for a
    closed pipe.  Here are the methods that print once more, with [print]
    asking the console; the methods that do not print are the ones above. *)

(** What one [print] does; [partial] is the text that reached the console
    before the exception. *)
Inductive print_outcome : Type :=
| Printed
| PrintFailed (partial : list string) (e : exn).

(** The console answers from the lines printed so far and the line to print. *)
Definition Printer : Type := list string -> string -> print_outcome.

Definition add_text (partial : list string) (w : World) : World :=
  {| downloaded_hashes := downloaded_hashes w; files := files w;
     stdout := stdout w ++ partial; requested := requested w |}.

Module Console.
Section ConsoleMethods.
Context `{PyLib}.
Variable download_dir : string.
Variable env : Env.
Variable console : Printer.

Local Open Scope py_scope.

Definition print (line : string) : M unit :=
  fun w =>
    match console (stdout w) line with
    | Printed => Some (Ok tt, add_line line w)
    | PrintFailed partial e => Some (Raise e, add_text partial w)
    end.

Definition is_duplicate_content (content filename : string) : M bool :=
  fun w =>
    let file_hash := calculate_file_hash content in
    match downloaded_hashes w !! file_hash with
    | Some existing_file =>
        (print ("  Content identical to already downloaded: " ++ existing_file) >>
         ret true) w
    | None =>
        ret false (set_hashes (<[file_hash := filename]> (downloaded_hashes w)) w)
    end.

(** The body of the [try] block. *)
Definition fetch_body (url : string) : M bool :=
  print (" Connecting to: " ++ url) >>
  let* response := get env url in
  raise_for_status response >>
  let* content_type := lift_result (validate_image_response response) in
  let* filename := lift_result (get_safe_filename url (Some content_type)) in
  let* content := lift_result (content response) in
  let* duplicate := is_duplicate_content content filename in
  if duplicate : bool then ret false
  else
    let* unique_filename :=
      (fun w => lift_option (get_unique_filename download_dir (files w) filename) w) in
    save env unique_filename content >>
    print ("✓ Successfully fetched: " ++ filename) >>
    print ("✓ Image saved to " ++ path_str download_dir unique_filename) >>
    print "" >>
    ret true.

(** The [except] clauses, each followed by the common [print()].  None of
    these calls is inside a [try]: an exception of theirs leaves
    [fetch_single_image]. *)
Definition handler (url : string) (e : exn) : M unit :=
  match e with
  | Timeout _ =>
      print (" Connection timeout for: " ++ url) >>
      print "   The community server didn't respond in time. Please try again later."
  | ConnectionError _ =>
      print ("  Cannot connect to: " ++ url) >>
      print "   Please check your internet connection and the URL."
  | HTTPError code why =>
      print ("  Server responded with error for: " ++ url) >>
      print ("   HTTP " ++ pretty code ++ ": " ++ why)
  | ValueError msg =>
      print ("  Invalid image at: " ++ url) >>
      print ("   " ++ msg)
  | OtherException msg =>
      print ("  Unexpected error with: " ++ url) >>
      print ("   " ++ msg)
  end >>
  print "".

Definition fetch_single_image (url : string) : M bool :=
  fun w =>
    match fetch_body url w with
    | None => None
    | Some (Ok b, w') => Some (Ok b, w')
    | Some (Raise e, w') => (handler url e >> ret false) w'
    end.

(** The [for] loop of [fetch_images] over the remaining URLs: an exception
    that leaves [fetch_single_image] leaves the loop. *)
Fixpoint fetch_loop (urls : list string) (successful : Z) : M Z :=
  match urls with
  | [] => ret successful
  | url :: rest =>
      let url := strip url in
      if String.eqb url "" then fetch_loop rest successful
      else
        let* ok := fetch_single_image url in
        fetch_loop rest (if ok : bool then successful + 1 else successful)%Z
  end.

Definition fetch_images (urls : string + list string) : M (Z * Z) :=
  let urls :=
    match urls with
    | inl s => List.map strip (split "," s)
    | inr l => l
    end in
  let total := Z.of_nat (List.length urls) in
  let* successful := fetch_loop urls 0%Z in
  ret (successful, total).


End ConsoleMethods.

(** *** The command line: [main] *)

(** What [main] gets from outside besides the network, the disk and the
    console: the line that [input] reads (or the exception it raises,
    [EOFError] for one) and the outcome of
    [self.download_dir.mkdir(exist_ok=True)] in the constructor. *)
Record Session : Type := {
  typed : result string;
  mkdir : result unit
}.

(** The double quote, as a one-character string. *)
Definition quote : string := String (ascii_of_nat 34) "".

(** The three summaries of [main]. *)
Definition summary (successful total : Z) : string :=
  if ((successful =? total) && (total >? 0))%Z
  then " All images fetched successfully!"
  else if (successful >? 0)%Z
  then "Fetched " ++ pretty successful ++ " out of " ++ pretty total
       ++ " images successfully."
  else " No images could be fetched. The community connection was not established this time.".

(** The default of the constructor's [download_dir]. *)
Definition default_download_dir : string := "Fetched_Images".

Section ConsoleMain.
Context `{PyLib}.
Variable env : Env.
Variable console : Printer.
Variable session : Session.

Local Open Scope py_scope.

(** [UbuntuImageFetcher()]: the dictionary starts empty and the directory
    is created if it is missing; an exception of [mkdir] leaves the
    constructor. *)
Definition __init__ : M unit :=
  fun w =>
    match mkdir session with
    | Raise e => Some (Raise e, w)
    | Ok _ => Some (Ok tt, set_hashes ∅ w)
    end.

(** [input(prompt)]: the prompt is written, a line is read. *)
Definition input (prompt : string) : M string :=
  print console prompt >> lift_result (typed session).

(** [main] has no [try]: what a call of it raises, it raises. *)
Definition main : M unit :=
  print console " Welcome to the Ubuntu Image Fetcher" >>
  print console "A tool for mindfully collecting images from the web" >>
  print console "" >>
  print console (quote ++ "I am because we are." ++ quote ++ " - Ubuntu Philosophy") >>
  print console "" >>
  let* line := input "Please enter the image URL(s) (comma-separated for multiple): " in
  let urls_input := strip line in
  if String.eqb urls_input ""
  then print console "  No URLs provided. Ubuntu teaches us to share - please provide URLs to fetch."
  else
    print console "" >>
    __init__ >>
    let* counts := fetch_images default_download_dir env console (inl urls_input) in
    print console (summary (fst counts) (snd counts)) >>
    print console "" >>
    print console "Connection strengthened. Community enriched." >>
    print console "" >>
    print console "Ubuntu reminds us: 'A person is a person through other persons.'".

End ConsoleMain.
End Console.

(** The texts that [main] writes before it reads, the prompt included. *)
Definition opening : list string :=
  [ " Welcome to the Ubuntu Image Fetcher";
    "A tool for mindfully collecting images from the web";
    "";
    Console.quote ++ "I am because we are." ++ Console.quote ++ " - Ubuntu Philosophy";
    "";
    "Please enter the image URL(s) (comma-separated for multiple): " ].

(** The lines that [main] prints after the summary. *)
Definition closing : list string :=
  [ "";
    "Connection strengthened. Community enriched.";
    "";
    "Ubuntu reminds us: 'A person is a person through other persons.'" ].

(** The world in which [main] calls [fetch_images], on a console that took
    every line so far. *)
Definition before_batch (w : World) : World :=
  set_hashes ∅
    (add_line "" (List.fold_left (fun w' line => add_line line w') opening w)).

(** ** Sample answers of the network and of the disk *)

Module Sample.

(** A 200 response with the given headers and body. *)
Definition response (content_type content_length : option string) (body : string)
  : Response :=
  {| status_code := 200; reason := "OK";
     header_content_type := content_type;
     header_content_length := content_length;
     content := Ok body |}.


(** Every URL is answered by the same response; every write succeeds. *)
Definition answer (r : Response) : Env :=
  {| requests_get := fun _ _ => Ok r;
     open_write := fun _ _ _ => Written |}.

(** Every URL is answered by the same PNG; every write succeeds. *)
Definition serve (body : string) : Env :=
  answer (response (Some "image/png") None body).

(** The same network, with a disk that is full during the first fetch. *)
Definition disk_full_once (body : string) : Env :=
  {| requests_get := fun _ _ => Ok (response (Some "image/png") None body);
     open_write := fun log _ _ =>
       match log with
       | [_] => OpenFailed (OtherException "[Errno 28] No space left on device")
       | _ => Written
       end |}.




(** A console in UTF-8 that is never closed: it takes every line. *)
Definition utf8_console : Printer := fun _ _ => Printed.



End Sample.

(** * Properties *)

(** ** Strings *)

Lemma append_nil (t : string) : "" ++ t = t.
Proof. reflexivity. Qed.

Lemma append_cons (c : ascii) (s t : string) : String c s ++ t = String c (s ++ t).
Proof. reflexivity. Qed.

Lemma length_append (s t : string) :
  String.length (s ++ t) = String.length s + String.length t.
Proof.
  induction s as [|c s IH]; [reflexivity|].
  rewrite append_cons. simpl. now rewrite IH.
Qed.

Lemma append_inv_tail (s1 s2 t : string) : s1 ++ t = s2 ++ t -> s1 = s2.
Proof.
  revert s2; induction s1 as [|c s1 IH]; intros [|d s2] Heq;
    rewrite ?append_nil, ?append_cons in Heq.
  - reflexivity.
  - apply (f_equal String.length) in Heq; simpl in Heq.
    rewrite length_append in Heq; lia.
  - apply (f_equal String.length) in Heq; simpl in Heq.
    rewrite length_append in Heq; lia.
  - injection Heq as -> Heq. f_equal. now apply IH.
Qed.

Lemma append_inv_head (s t1 t2 : string) : s ++ t1 = s ++ t2 -> t1 = t2.
Proof.
  induction s as [|c s IH]; rewrite ?append_nil, ?append_cons; [easy|].
  intros [= Heq]; auto.
Qed.

Lemma chars_append (s t : string) : chars (s ++ t) = (chars s ++ chars t)%list.
Proof.
  induction s as [|c s IH]; [reflexivity|].
  rewrite append_cons. simpl. now rewrite IH.
Qed.

Lemma contains_In (c : ascii) (s : string) : contains c s = true <-> In c (chars s).
Proof.
  induction s as [|d s IH]; simpl; [split; [discriminate | tauto]|].
  destruct (Ascii.eqb_spec c d) as [->|Hne].
  - split; auto.
  - rewrite IH. split; [auto | intros [Heq|Hin]; [congruence | exact Hin]].
Qed.

Lemma chars_map_chars (f : ascii -> ascii) (s : string) :
  chars (map_chars f s) = List.map f (chars s).
Proof. induction s as [|c s IH]; simpl; [reflexivity | now rewrite IH]. Qed.

(** ** [get_safe_filename] *)

Lemma safe_chars_not_unsafe (c : ascii) :
  contains c safe_chars = true -> unsafe_char c = false.
Proof.
  rewrite contains_In. unfold safe_chars. simpl.
  intros Hin. repeat (destruct Hin as [<-|Hin]; [reflexivity|]). destruct Hin.
Qed.

Lemma sanitize_safe (filename : string) (c : ascii) :
  In c (chars (sanitize filename)) -> contains c safe_chars = true.
Proof.
  unfold sanitize. rewrite chars_map_chars, in_map_iff.
  intros (d & <- & _). destruct (contains d safe_chars) eqn:Hd; [exact Hd | reflexivity].
Qed.

Lemma sanitize_id (filename : string) :
  (forall c, In c (chars filename) -> contains c safe_chars = true) ->
  sanitize filename = filename.
Proof.
  induction filename as [|c s IH]; intros Hall; [reflexivity|].
  unfold sanitize in *. cbn [map_chars]. rewrite (Hall c) by (left; reflexivity).
  f_equal. apply IH. intros d Hd. apply Hall. right; exact Hd.
Qed.

Lemma extension_cases (content_type : option string) :
  In (_get_extension_from_content_type content_type)
     [".jpg"; ".png"; ".gif"; ".webp"; ".bmp"; ".svg"].
Proof.
  destruct content_type as [[|c ct]|]; try (left; reflexivity).
  unfold _get_extension_from_content_type, extensions, dict_get.
  set (key := lower (String c ct)). clearbody key.
  repeat match goal with
         | |- context [String.eqb ?k key] => destruct (String.eqb k key)
         end;
    cbn [In]; auto 10.
Qed.

Lemma fallback_is_safe (content_type : option string) :
  sanitize ("downloaded_image" ++ _get_extension_from_content_type content_type)
  = "downloaded_image" ++ _get_extension_from_content_type content_type.
Proof.
  pose proof (extension_cases content_type) as Hin. simpl in Hin.
  repeat (destruct Hin as [<-|Hin]; [reflexivity|]). destruct Hin.
Qed.

Section SafeFilename.
Context `{PyLib}.

(** C1, as the code has it.  For every URL that [urlparse] accepts and
    every optional content type, [get_safe_filename] returns a string:
    the candidate with each character outside the allow-list
    [A-Za-z0-9.-_] replaced by an underscore.  Every character of the
    result is in the allow-list, so none is a path separator or a control
    character.  When [urlparse] raises, [get_safe_filename] raises the
    same exception and returns no string. *)
Theorem get_safe_filename_allow_list (url : string) (content_type : option string) :
  (forall path,
      urlparse_path url = Ok path ->
      exists filename,
        get_safe_filename url content_type = Ok filename
        /\ chars filename
           = List.map (fun c => if contains c safe_chars then c else "_"%char)
                      (chars (candidate_filename path content_type))
        /\ (forall c, In c (chars filename) -> In c (chars safe_chars))
        /\ (forall c, In c (chars filename) -> unsafe_char c = false))
  /\ (forall e,
        urlparse_path url = Raise e ->
        get_safe_filename url content_type = Raise e).
Proof.
  unfold get_safe_filename. split.
  - intros path Hpath. rewrite Hpath.
    eexists; split; [reflexivity|]. split; [apply chars_map_chars|].
    split; intros c Hc; apply sanitize_safe in Hc.
    + now apply contains_In.
    + now apply safe_chars_not_unsafe.
  - intros e Hpath. now rewrite Hpath.
Qed.

(** C9.  When the decoded last segment of the URL's path is empty or has
    no dot, the derived name is "downloaded_image" followed by the
    extension that the table gives for the lower-cased content type, and
    by ".jpg" when the content type is absent, empty or not in the table. *)
Theorem get_safe_filename_fallback (url : string) (content_type : option string)
                                   (path : string) :
  urlparse_path url = Ok path ->
  unquote (basename path) = "" \/ ~ In "."%char (chars (unquote (basename path))) ->
  get_safe_filename url content_type
  = Ok ("downloaded_image" ++ _get_extension_from_content_type content_type)
  /\ _get_extension_from_content_type content_type
     = match content_type with
       | None => ".jpg"
       | Some ct =>
           if String.eqb (lower ct) "image/jpeg" then ".jpg"
           else if String.eqb (lower ct) "image/png" then ".png"
           else if String.eqb (lower ct) "image/gif" then ".gif"
           else if String.eqb (lower ct) "image/webp" then ".webp"
           else if String.eqb (lower ct) "image/bmp" then ".bmp"
           else if String.eqb (lower ct) "image/svg+xml" then ".svg"
           else ".jpg"
       end.
Proof.
  intros Hpath Hcand. split.
  - unfold get_safe_filename, candidate_filename. rewrite Hpath.
    assert (String.eqb (unquote (basename path)) ""
            || negb (contains "." (unquote (basename path))) = true) as ->.
    { destruct Hcand as [-> | Hno]; [reflexivity|].
      apply orb_true_iff; right. apply negb_true_iff.
      destruct (contains "." (unquote (basename path))) eqn:Hc; [|reflexivity].
      apply contains_In in Hc. contradiction. }
    now rewrite fallback_is_safe.
  - destruct content_type as [[|c ct]|]; [reflexivity| |reflexivity].
    unfold _get_extension_from_content_type, extensions, dict_get.
    set (key := lower (String c ct)).
    rewrite !(String.eqb_sym key). reflexivity.
Qed.

End SafeFilename.

(** ** [get_unique_filename] *)

Section UniqueFilename.
Variable download_dir : string.

Lemma new_filename_inj (stem suffix : string) (j k : nat) :
  new_filename stem suffix j = new_filename stem suffix k -> j = k.
Proof.
  unfold new_filename. intros Heq.
  apply append_inv_head in Heq. rewrite !append_cons, !append_nil in Heq.
  injection Heq as Heq. apply append_inv_tail in Heq.
  exact (pretty_nat_inj _ _ Heq).
Qed.

Lemma new_filename_underscore (stem suffix : string) (k : nat) :
  In "_"%char (chars (new_filename stem suffix k)).
Proof.
  unfold new_filename. rewrite chars_append. apply in_or_app. right.
  rewrite append_cons. left. reflexivity.
Qed.

(** A probe is never the directory itself or its parent, so it exists
    exactly when it is an entry of the directory. *)
Lemma path_exists_new_filename (fs : gmap string string) (stem suffix : string)
                               (k : nat) :
  path_exists fs (new_filename stem suffix k)
  = bool_decide (is_Some (fs !! new_filename stem suffix k)).
Proof.
  pose proof (new_filename_underscore stem suffix k) as Hin.
  unfold path_exists.
  destruct (String.eqb_spec (new_filename stem suffix k) "") as [Heq|_];
    [rewrite Heq in Hin; destruct Hin|].
  destruct (String.eqb_spec (new_filename stem suffix k) ".") as [Heq|_];
    [rewrite Heq in Hin; simpl in Hin; intuition discriminate|].
  destruct (String.eqb_spec (new_filename stem suffix k) "..") as [Heq|_];
    [rewrite Heq in Hin; simpl in Hin; intuition discriminate|].
  reflexivity.
Qed.

(** What the loop returns, and what it has seen when the fuel runs out. *)
Lemma probe_spec (fs : gmap string string) (stem suffix : string)
                 (fuel counter : nat) :
  match probe fs stem suffix fuel counter with
  | Some r =>
      exists k, counter <= k < counter + fuel
                /\ r = new_filename stem suffix k
                /\ path_exists fs r = false
                /\ forall j, counter <= j < k ->
                             path_exists fs (new_filename stem suffix j) = true
  | None =>
      forall j, counter <= j < counter + fuel ->
                path_exists fs (new_filename stem suffix j) = true
  end.
Proof.
  revert counter; induction fuel as [|fuel IH]; intros counter; simpl.
  - intros j Hj; lia.
  - destruct (path_exists fs (new_filename stem suffix counter)) eqn:Hex; simpl.
    + specialize (IH (S counter)).
      destruct (probe fs stem suffix fuel (S counter)) as [r|].
      * destruct IH as (k & Hk & -> & Hfree & Hbelow).
        exists k. split; [lia|]. split; [reflexivity|]. split; [exact Hfree|].
        intros j Hj. destruct (Nat.eq_dec j counter) as [->|Hne]; [exact Hex|].
        apply Hbelow; lia.
      * intros j Hj. destruct (Nat.eq_dec j counter) as [->|Hne]; [exact Hex|].
        apply IH; lia.
    + exists counter. split; [lia|]. split; [reflexivity|]. split; [exact Hex|].
      intros j Hj; lia.
Qed.

(** The pigeonhole step: [n] consecutive probes that all exist are [n]
    different entries of the directory. *)
Lemma probes_fit (fs : gmap string string) (stem suffix : string)
                 (counter n : nat) :
  (forall j, counter <= j < counter + n ->
             path_exists fs (new_filename stem suffix j) = true) ->
  n <= size fs.
Proof.
  intros Hall.
  set (names := List.map (new_filename stem suffix) (seq counter n)).
  assert (NoDup names) as Hnodup.
  { apply NoDup_fmap_2; [|apply NoDup_seq].
    intros j k Heq. exact (new_filename_inj _ _ _ _ Heq). }
  assert (list_to_set names ⊆ dom fs) as Hsub.
  { intros x Hx. apply elem_of_list_to_set in Hx.
    apply list_elem_of_In, in_map_iff in Hx as (j & <- & Hj).
    apply in_seq in Hj. specialize (Hall j Hj).
    rewrite path_exists_new_filename in Hall.
    apply bool_decide_eq_true in Hall. now apply elem_of_dom. }
  apply subseteq_size in Hsub.
  rewrite size_list_to_set, size_dom in Hsub by exact Hnodup.
  unfold names in Hsub. now rewrite length_map, length_seq in Hsub.
Qed.

Lemma probe_more_fuel (fs : gmap string string) (stem suffix : string)
                      (fuel fuel' counter : nat) (r : string) :
  probe fs stem suffix fuel counter = Some r -> fuel <= fuel' ->
  probe fs stem suffix fuel' counter = Some r.
Proof.
  revert fuel' counter; induction fuel as [|fuel IH]; intros fuel' counter;
    [discriminate|].
  destruct fuel' as [|fuel']; [lia|]. simpl.
  destruct (path_exists fs (new_filename stem suffix counter)); simpl; [|easy].
  intros Hp Hle. apply IH; [exact Hp | lia].
Qed.

(** The loop returns the first unused probe, found among the first
    [size fs + 1]. *)
Lemma probe_returns (fs : gmap string string) (stem suffix : string) :
  exists k,
    1 <= k <= S (size fs)
    /\ path_exists fs (new_filename stem suffix k) = false
    /\ (forall j, 1 <= j < k -> path_exists fs (new_filename stem suffix j) = true)
    /\ forall fuel, k <= fuel ->
         probe fs stem suffix fuel 1 = Some (new_filename stem suffix k).
Proof.
  pose proof (probe_spec fs stem suffix (S (size fs)) 1) as Hspec.
  destruct (probe fs stem suffix (S (size fs)) 1) as [r|] eqn:Hp.
  - destruct Hspec as (k & Hk & -> & Hfree & Hbelow).
    exists k. split; [lia|]. split; [exact Hfree|]. split; [exact Hbelow|].
    intros fuel Hfuel.
    pose proof (probe_spec fs stem suffix k 1) as Hk'.
    destruct (probe fs stem suffix k 1) as [r'|] eqn:Hp'.
    + destruct Hk' as (k' & Hk' & -> & Hfree' & Hbelow').
      assert (k' = k) as ->.
      { destruct (Nat.lt_trichotomy k' k) as [Hlt|[Heq|Hgt]]; [|exact Heq|lia].
        rewrite Hbelow in Hfree' by lia. discriminate. }
      now apply (probe_more_fuel _ _ _ k).
    + rewrite Hk' in Hfree by lia. discriminate.
  - apply probes_fit in Hspec. lia.
Qed.

Lemma get_unique_filename_fuel_returns (fs : gmap string string) (filename : string) :
  exists r,
    path_exists fs r = false
    /\ forall fuel, S (size fs) <= fuel ->
         get_unique_filename_fuel download_dir fuel fs filename = Some r.
Proof.
  unfold get_unique_filename_fuel.
  destruct (path_exists fs filename) eqn:Hex; simpl.
  - destruct (probe_returns fs (path_stem (joined_name download_dir filename))
                               (path_suffix (joined_name download_dir filename)))
      as (k & Hk & Hfree & _ & Hfuel).
    eexists. split; [exact Hfree|].
    intros fuel Hle. apply Hfuel; lia.
  - exists filename. auto.
Qed.

Lemma get_unique_filename_returns (fs : gmap string string) (filename : string) :
  exists r, get_unique_filename download_dir fs filename = Some r
            /\ path_exists fs r = false.
Proof.
  destruct (get_unique_filename_fuel_returns fs filename) as (r & Hfree & Hr).
  exists r. split; [apply Hr; lia | exact Hfree].
Qed.

(** C7.  The probe loop returns for every stem and suffix and every
    directory: among the first [size fs + 1] probes one is unused, the
    loop returns the first such probe, and it returns the same with any
    larger number of iterations allowed.  Hence [get_unique_filename]
    returns for every file name. *)
Theorem get_unique_filename_terminates (fs : gmap string string) :
  (forall stem suffix, exists k,
      1 <= k <= S (size fs)
      /\ path_exists fs (new_filename stem suffix k) = false
      /\ (forall j, 1 <= j < k -> path_exists fs (new_filename stem suffix j) = true)
      /\ forall fuel, k <= fuel ->
           probe fs stem suffix fuel 1 = Some (new_filename stem suffix k))
  /\ (forall filename, exists r,
        get_unique_filename download_dir fs filename = Some r
        /\ path_exists fs r = false
        /\ forall fuel, S (size fs) <= fuel ->
             get_unique_filename_fuel download_dir fuel fs filename = Some r).
Proof.
  split; [apply probe_returns|].
  intros filename.
  destruct (get_unique_filename_fuel_returns fs filename) as (r & Hfree & Hr).
  exists r. split; [apply Hr; lia|]. split; [exact Hfree | exact Hr].
Qed.

End UniqueFilename.

Section UniqueFilenameResult.
Variable download_dir : string.

(** For a name other than "" and ".", [get_unique_filename] keeps an
    unused name, and otherwise returns the probe of the least counter
    from 1 on whose probe is unused. *)
Lemma get_unique_filename_least (fs : gmap string string) (filename : string) :
  filename <> "" -> filename <> "." ->
  (path_exists fs filename = false ->
   get_unique_filename download_dir fs filename = Some filename)
  /\ (path_exists fs filename = true ->
      exists k,
        1 <= k
        /\ get_unique_filename download_dir fs filename
           = Some (new_filename (path_stem filename) (path_suffix filename) k)
        /\ path_exists fs (new_filename (path_stem filename) (path_suffix filename) k)
           = false
        /\ forall j, 1 <= j < k ->
             path_exists fs (new_filename (path_stem filename) (path_suffix filename) j)
             = true).
Proof.
  intros Hne Hdot.
  unfold get_unique_filename, get_unique_filename_fuel.
  split; intros Hex; rewrite Hex; [reflexivity|]. cbn [negb].
  assert (joined_name download_dir filename = filename) as ->.
  { unfold joined_name.
    destruct (String.eqb_spec filename ""); [contradiction|].
    destruct (String.eqb_spec filename "."); [contradiction|reflexivity]. }
  destruct (probe_returns fs (path_stem filename) (path_suffix filename))
    as (k & Hk & Hfree & Hbelow & Hfuel).
  exists k. split; [lia|]. split; [apply Hfuel; lia|]. split; assumption.
Qed.

End UniqueFilenameResult.

Example photo_example :
  get_unique_filename "Fetched_Images"
    (<["photo.jpg" := "old"]> (<["photo_1.jpg" := "older"]> ∅)) "photo.jpg"
  = Some "photo_2.jpg".
Proof. vm_compute. reflexivity. Qed.

(** C6 at the candidate ".", which [get_safe_filename] returns for a URL
    whose path ends in "/.".  The joined path is the download directory
    itself, so the name exists and the probes are built from the stem of the
    directory's name: in an empty directory "Fetched_Images" the result is
    "Fetched_Images_1", which is no probe of the candidate's own stem and
    suffix. *)
Theorem get_unique_filename_dot :
  @get_safe_filename CPython.lib "http://example.com/." (Some "image/png") = Ok "."
  /\ get_unique_filename "Fetched_Images" ∅ "." = Some "Fetched_Images_1"
  /\ forall k, "Fetched_Images_1" <> new_filename (path_stem ".") (path_suffix ".") k.
Proof.
  split; [vm_compute; reflexivity|]. split; [vm_compute; reflexivity|].
  intros k. unfold new_filename. vm_compute path_stem. discriminate.
Qed.

(** ** [validate_image_response] *)

Section Validation.
Context `{PyLib}.



(** What the code does with a length over the limit whose size in MiB
    does not fit a float: the exception of the division is the result. *)
Lemma validate_image_response_overflow (response : Response) (n : Z) (e : exn) :
  startswith "image/"
    (lower (match header_content_type response with Some v => v | None => "" end))
  = true ->
  declared_length response = Ok (Some n) ->
  (n > max_file_size)%Z ->
  format_mb n = Raise e ->
  validate_image_response response = Raise e.
Proof.
  intros Hst Hdecl Hgt Hfmt. unfold validate_image_response. rewrite Hst. cbn [negb].
  unfold declared_length in Hdecl.
  destruct (header_content_length response) as [[|c cl]|]; try discriminate.
  destruct (py_int (String c cl)) as [m|e']; [|discriminate].
  injection Hdecl as ->.
  destruct (Z.gtb_spec n max_file_size); [|lia]. now rewrite Hfmt.
Qed.

End Validation.

(** ** [fetch_single_image] *)

Section Pipeline.
Context `{PyLib}.
Variable download_dir : string.
Variable env : Env.

(* The methods are unfolded under their own names before the section
   abbreviates them to their use at [download_dir] and [env]. *)
Local Ltac unfold_fetch_body := unfold fetch_body.
Local Ltac unfold_fetch_single_image := unfold fetch_single_image.

Local Abbreviation fetch_body := (fetch_body download_dir env).
Local Abbreviation fetch_single_image := (fetch_single_image download_dir env).
Local Abbreviation downloads := (downloads env).
Local Abbreviation later := (later download_dir env).

Lemma downloads_functional (url : string) (w : World) (p1 f1 p2 f2 : string) :
  downloads url w p1 f1 -> downloads url w p2 f2 -> p1 = p2 /\ f1 = f2.
Proof.
  intros (r1 & c1 & Hg1 & _ & Hv1 & Hf1 & Hc1) (r2 & c2 & Hg2 & _ & Hv2 & Hf2 & Hc2).
  rewrite Hg1 in Hg2. injection Hg2 as <-.
  rewrite Hv1 in Hv2. injection Hv2 as <-.
  rewrite Hf1 in Hf2. injection Hf2 as <-.
  rewrite Hc1 in Hc2. injection Hc2 as <-. auto.
Qed.

Lemma fetch_body_cases (url : string) (w : World) :
  (exists e, fetch_body url w = Some (Raise e, connected url w)
             /\ forall p f, ~ downloads url w p f)
  \/ (exists p f existing,
        downloads url w p f
        /\ downloaded_hashes w !! calculate_file_hash p = Some existing
        /\ fetch_body url w
           = Some (Ok false, add_line (duplicate_line existing) (connected url w)))
  \/ (exists p f u,
        downloads url w p f
        /\ downloaded_hashes w !! calculate_file_hash p = None
        /\ get_unique_filename download_dir (files w) f = Some u
        /\ match open_write env (requested w ++ [url]) u p with
           | Written =>
               fetch_body url w
               = Some (Ok true,
                       add_line ""
                         (add_line ("✓ Image saved to " ++ path_str download_dir u)
                            (add_line ("✓ Successfully fetched: " ++ f)
                               (set_files (<[u := p]> (files w))
                                          (registered url p f w)))))
           | OpenFailed e =>
               fetch_body url w = Some (Raise e, registered url p f w)
           | WriteFailed partial e =>
               fetch_body url w
               = Some (Raise e, set_files (<[u := partial]> (files w))
                                          (registered url p f w))
           end).
Proof.
  unfold_fetch_body. unfold bind, print, get, lift_result, ret.
  cbn [add_line requested].
  destruct (requests_get env (requested w) url) as [response|e] eqn:Hget.
  2:{ left. exists e. split; [reflexivity|].
      intros p f (r & c & Hg & _). congruence. }
  unfold raise_for_status.
  destruct ((400 <=? status_code response) && (status_code response <? 600))%Z eqn:Hst.
  { left. eexists. split; [reflexivity|].
    intros p f (r & c & Hg & Hs & _). congruence. }
  unfold ret.
  destruct (validate_image_response response) as [content_type|e] eqn:Hval.
  2:{ left. exists e. split; [reflexivity|].
      intros p f (r & c & Hg & _ & Hv & _). congruence. }
  destruct (get_safe_filename url (Some content_type)) as [filename|e] eqn:Hname.
  2:{ left. exists e. split; [reflexivity|].
      intros p f (r & c & Hg & _ & Hv & Hf & _). congruence. }
  destruct (content response) as [payload|e] eqn:Hbody.
  2:{ left. exists e. split; [reflexivity|].
      intros p f (r & c & Hg & _ & Hv & Hf & Hc). congruence. }
  assert (downloads url w payload filename) as Hdl.
  { exists response, content_type. auto. }
  right. unfold is_duplicate_content, bind, print, ret.
  cbn [downloaded_hashes add_request add_line].
  destruct (downloaded_hashes w !! calculate_file_hash payload)
    as [existing|] eqn:Hidx.
  { left. exists payload, filename, existing. auto. }
  right. unfold lift_option.
  destruct (get_unique_filename_returns download_dir (files w) filename)
    as (u & Hu & _).
  exists payload, filename, u.
  split; [exact Hdl|]. split; [exact Hidx|]. split; [exact Hu|].
  change (files (set_hashes _ (add_request url (add_line _ w)))) with (files w).
  rewrite Hu. unfold save.
  change (requested (set_hashes _ (add_request url (add_line _ w))))
    with (requested w ++ [url])%list.
  change (files (set_hashes _ (add_request url (add_line _ w)))) with (files w).
  destruct (open_write env (requested w ++ [url]) u payload); reflexivity.
Qed.

Lemma handler_lines (url : string) (e : exn) (w : World) :
  exists l1 l2,
    handler url e w = Some (Ok tt, add_line "" (add_line l2 (add_line l1 w))).
Proof. destruct e; do 2 eexists; reflexivity. Qed.

Lemma caught (url : string) (e : exn) (w w1 : World) :
  fetch_body url w = Some (Raise e, w1) ->
  exists l1 l2,
    fetch_single_image url w
    = Some (Ok false, add_line "" (add_line l2 (add_line l1 w1))).
Proof.
  intros Hbody. unfold_fetch_single_image. rewrite Hbody.
  destruct (handler_lines url e w1) as (l1 & l2 & Hh).
  exists l1, l2. unfold bind. now rewrite Hh.
Qed.

Lemma returned (url : string) (ok : bool) (w w1 : World) :
  fetch_body url w = Some (Ok ok, w1) ->
  fetch_single_image url w = Some (Ok ok, w1).
Proof. intros Hbody. unfold_fetch_single_image. now rewrite Hbody. Qed.

(** The four ways a fetch can go: it fails before the payload is there;
    the payload is a duplicate; the payload is new and is saved; the
    payload is new and saving it fails. *)
Lemma fetch_single_image_cases (url : string) (w : World) :
  exists ok w',
    fetch_single_image url w = Some (Ok ok, w')
    /\ requested w' = (requested w ++ [url])%list
    /\ ((ok = false
         /\ (forall p f, ~ downloads url w p f)
         /\ downloaded_hashes w' = downloaded_hashes w
         /\ files w' = files w)
        \/ (exists p f existing,
              downloads url w p f
              /\ downloaded_hashes w !! calculate_file_hash p = Some existing
              /\ ok = false
              /\ w' = add_line (duplicate_line existing) (connected url w))
        \/ (exists p f u,
              downloads url w p f
              /\ downloaded_hashes w !! calculate_file_hash p = None
              /\ get_unique_filename download_dir (files w) f = Some u
              /\ open_write env (requested w ++ [url]) u p = Written
              /\ ok = true
              /\ downloaded_hashes w'
                 = <[calculate_file_hash p := f]> (downloaded_hashes w)
              /\ files w' = <[u := p]> (files w)
              /\ stdout w'
                 = List.app (stdout w)
                     [" Connecting to: " ++ url;
                      "✓ Successfully fetched: " ++ f;
                      "✓ Image saved to " ++ path_str download_dir u;
                      ""])
        \/ (exists p f u,
              downloads url w p f
              /\ downloaded_hashes w !! calculate_file_hash p = None
              /\ get_unique_filename download_dir (files w) f = Some u
              /\ open_write env (requested w ++ [url]) u p <> Written
              /\ ok = false
              /\ downloaded_hashes w'
                 = <[calculate_file_hash p := f]> (downloaded_hashes w)
              /\ (files w' = files w
                  \/ exists partial, files w' = <[u := partial]> (files w)))).
Proof.
  destruct (fetch_body_cases url w)
    as [(e & Hbody & Hno) | [(p & f & existing & Hdl & Hidx & Hbody)
                            | (p & f & u & Hdl & Hidx & Hu & Hbody)]].
  - destruct (caught _ _ _ _ Hbody) as (l1 & l2 & Hf).
    eexists _, _. split; [exact Hf|]. split; [reflexivity|]. left. auto.
  - apply returned in Hbody.
    eexists _, _. split; [exact Hbody|]. split; [reflexivity|].
    right; left. exists p, f, existing. auto.
  - destruct (open_write env (requested w ++ [url]) u p) as [|e|partial e] eqn:Hw.
    + apply returned in Hbody.
      eexists _, _. split; [exact Hbody|]. split; [reflexivity|].
      right; right; left. exists p, f, u.
      repeat (split; [first [assumption | reflexivity]|]).
      cbn. rewrite <- !app_assoc. reflexivity.
    + destruct (caught _ _ _ _ Hbody) as (l1 & l2 & Hf).
      eexists _, _. split; [exact Hf|]. split; [reflexivity|].
      right; right; right. exists p, f, u.
      repeat (split; [first [assumption | reflexivity | rewrite Hw; discriminate]|]).
      left; reflexivity.
    + destruct (caught _ _ _ _ Hbody) as (l1 & l2 & Hf).
      eexists _, _. split; [exact Hf|]. split; [reflexivity|].
      right; right; right. exists p, f, u.
      repeat (split; [first [assumption | reflexivity | rewrite Hw; discriminate]|]).
      right. exists partial. reflexivity.
Qed.

(** ** The index of one run *)

Lemma fetch_keeps_entries (url : string) (w : World) (ok : bool) (w' : World)
                          (h f : string) :
  fetch_single_image url w = Some (Ok ok, w') ->
  downloaded_hashes w !! h = Some f ->
  downloaded_hashes w' !! h = Some f.
Proof.
  intros Hfetch Hentry.
  destruct (fetch_single_image_cases url w) as (ok' & w'' & Hf & _ & Hcases).
  rewrite Hf in Hfetch. injection Hfetch as -> ->.
  destruct Hcases as [(_ & _ & -> & _)
                     | [(p & g & existing & _ & _ & _ & ->)
                       | [(p & g & u & _ & Hnew & _ & _ & _ & -> & _)
                         | (p & g & u & _ & Hnew & _ & _ & _ & -> & _)]]].
  - exact Hentry.
  - exact Hentry.
  - rewrite lookup_insert_ne; [exact Hentry | congruence].
  - rewrite lookup_insert_ne; [exact Hentry | congruence].
Qed.

Lemma later_keeps_entries (w w' : World) (h f : string) :
  later w w' ->
  downloaded_hashes w !! h = Some f ->
  downloaded_hashes w' !! h = Some f.
Proof.
  induction 1 as [|url w1 ok w2 _ IH Hstep]; intros Hentry; [exact Hentry|].
  eapply fetch_keeps_entries; [exact Hstep | auto].
Qed.

(** Once the payload has been looked up, its hash is in the index. *)
Lemma fetch_registers (url : string) (w : World) (ok : bool) (w' : World)
                      (payload filename : string) :
  downloads url w payload filename ->
  fetch_single_image url w = Some (Ok ok, w') ->
  exists existing,
    downloaded_hashes w' !! calculate_file_hash payload = Some existing
    /\ (downloaded_hashes w !! calculate_file_hash payload = None ->
        existing = filename)
    /\ (forall other, downloaded_hashes w !! calculate_file_hash payload = Some other ->
        existing = other).
Proof.
  intros Hdl Hfetch.
  destruct (fetch_single_image_cases url w) as (ok' & w'' & Hf & _ & Hcases).
  rewrite Hf in Hfetch. injection Hfetch as -> ->.
  destruct Hcases as [(_ & Hno & _)
                     | [(p & g & existing & Hdl' & Hidx & _ & ->)
                       | [(p & g & u & Hdl' & Hnew & _ & _ & _ & Hidx & _)
                         | (p & g & u & Hdl' & Hnew & _ & _ & _ & Hidx & _)]]].
  - destruct (Hno _ _ Hdl).
  - destruct (downloads_functional _ _ _ _ _ _ Hdl Hdl') as [<- <-].
    exists existing. cbn. split; [exact Hidx|]. split; congruence.
  - destruct (downloads_functional _ _ _ _ _ _ Hdl Hdl') as [<- <-].
    exists filename. rewrite Hidx, lookup_insert_eq.
    split; [reflexivity|]. split; congruence.
  - destruct (downloads_functional _ _ _ _ _ _ Hdl Hdl') as [<- <-].
    exists filename. rewrite Hidx, lookup_insert_eq.
    split; [reflexivity|]. split; congruence.
Qed.

(** A payload whose hash is in the index is reported and skipped. *)
Lemma fetch_duplicate (url : string) (w : World) (payload filename existing : string) :
  downloads url w payload filename ->
  downloaded_hashes w !! calculate_file_hash payload = Some existing ->
  fetch_single_image url w
  = Some (Ok false, add_line (duplicate_line existing) (connected url w)).
Proof.
  intros Hdl Hentry.
  destruct (fetch_single_image_cases url w) as (ok' & w'' & Hf & _ & Hcases).
  rewrite Hf.
  destruct Hcases as [(_ & Hno & _)
                     | [(p & g & other & Hdl' & Hidx & -> & ->)
                       | [(p & g & u & Hdl' & Hnew & _)
                         | (p & g & u & Hdl' & Hnew & _)]]].
  - destruct (Hno _ _ Hdl).
  - destruct (downloads_functional _ _ _ _ _ _ Hdl Hdl') as [<- <-].
    rewrite Hidx in Hentry. injection Hentry as ->. reflexivity.
  - destruct (downloads_functional _ _ _ _ _ _ Hdl Hdl') as [<- <-]. congruence.
  - destruct (downloads_functional _ _ _ _ _ _ Hdl Hdl') as [<- <-]. congruence.
Qed.

(** C2.  In one run an entry of the index is never replaced: a hash keeps
    the file name first stored for it through all later fetches.  And of
    two fetches that download the same payload, the later one returns
    false, prints that the content is identical to the file name the
    index holds for the payload after the earlier one (the earlier one's
    own candidate when the payload was new then), writes no file and
    leaves the index as it is. *)
Theorem second_fetch_is_duplicate :
  (forall w w' h f,
      later w w' ->
      downloaded_hashes w !! h = Some f ->
      downloaded_hashes w' !! h = Some f)
  /\ (forall url1 url2 w0 ok1 w1 w2 payload f1 f2,
        downloads url1 w0 payload f1 ->
        fetch_single_image url1 w0 = Some (Ok ok1, w1) ->
        later w1 w2 ->
        downloads url2 w2 payload f2 ->
        exists existing w3,
          downloaded_hashes w1 !! calculate_file_hash payload = Some existing
          /\ (downloaded_hashes w0 !! calculate_file_hash payload = None ->
              existing = f1)
          /\ fetch_single_image url2 w2 = Some (Ok false, w3)
          /\ stdout w3
             = List.app (stdout w2) [" Connecting to: " ++ url2;
                                     duplicate_line existing]
          /\ files w3 = files w2
          /\ downloaded_hashes w3 = downloaded_hashes w2).
Proof.
  split; [intros w w' h f; apply later_keeps_entries|].
  intros url1 url2 w0 ok1 w1 w2 payload f1 f2 Hdl1 Hfetch1 Hlater Hdl2.
  destruct (fetch_registers _ _ _ _ _ _ Hdl1 Hfetch1) as (existing & Hentry & Hnew & _).
  pose proof (later_keeps_entries _ _ _ _ Hlater Hentry) as Hentry2.
  exists existing, (add_line (duplicate_line existing) (connected url2 w2)).
  split; [exact Hentry|]. split; [exact Hnew|].
  split; [exact (fetch_duplicate _ _ _ _ _ Hdl2 Hentry2)|].
  split; [cbn; now rewrite <- app_assoc|]. split; reflexivity.
Qed.

(** ** Effects of one fetch *)

Lemma path_exists_false (fs : gmap string string) (name : string) :
  path_exists fs name = false -> fs !! name = None.
Proof.
  unfold path_exists.
  destruct (String.eqb name "" || String.eqb name "." || String.eqb name "..");
    [discriminate|].
  intros Hex. apply bool_decide_eq_false in Hex.
  destruct (fs !! name) eqn:Hl; [|reflexivity].
  exfalso; apply Hex; eauto.
Qed.


(** C10.  After a fetch that returns true, the index maps the hash of
    the payload to the candidate name of [get_safe_filename], while the
    file is written under the name that [get_unique_filename] returns.
    When the candidate exists in the directory the two differ, and every
    later fetch of the same payload is reported as a duplicate of the
    candidate, not of the file written. *)
Theorem index_names_candidate (url : string) (w w' : World) :
  fetch_single_image url w = Some (Ok true, w') ->
  exists payload filename unique_filename,
    downloads url w payload filename
    /\ get_unique_filename download_dir (files w) filename = Some unique_filename
    /\ downloaded_hashes w' !! calculate_file_hash payload = Some filename
    /\ files w !! unique_filename = None
    /\ files w' = <[unique_filename := payload]> (files w)
    /\ (path_exists (files w) filename = true -> unique_filename <> filename)
    /\ (unique_filename <> filename ->
        downloaded_hashes w' !! calculate_file_hash payload <> Some unique_filename)
    /\ (forall url2 w2 f2,
          later w' w2 -> downloads url2 w2 payload f2 ->
          exists w3,
            fetch_single_image url2 w2 = Some (Ok false, w3)
            /\ stdout w3
               = List.app (stdout w2) [" Connecting to: " ++ url2;
                                       duplicate_line filename]).
Proof.
  intros Hfetch.
  destruct (fetch_single_image_cases url w) as (ok' & w'' & Hf & _ & Hcases).
  rewrite Hf in Hfetch. injection Hfetch as -> ->.
  destruct Hcases as [(Hok & _)
                     | [(p & g & existing & _ & _ & Hok & _)
                       | [(p & g & u & Hdl & Hnew & Hu & Hw & _ & Hidx & Hfs & _)
                         | (p & g & u & _ & _ & _ & _ & Hok & _)]]];
    try discriminate.
  destruct (get_unique_filename_returns download_dir (files w) g)
    as (u' & Hu' & Hfree).
  rewrite Hu in Hu'. injection Hu' as <-.
  assert (downloaded_hashes w' !! calculate_file_hash p = Some g) as Hentry.
  { rewrite Hidx. apply lookup_insert_eq. }
  exists p, g, u.
  split; [exact Hdl|]. split; [exact Hu|]. split; [exact Hentry|].
  split; [now apply path_exists_false|]. split; [exact Hfs|].
  split; [intros Hex Heq; congruence|].
  split; [intros Hne Heq; congruence|].
  intros url2 w2 f2 Hlater Hdl2.
  pose proof (later_keeps_entries _ _ _ _ Hlater Hentry) as Hentry2.
  eexists. split; [exact (fetch_duplicate _ _ _ _ _ Hdl2 Hentry2)|].
  cbn. now rewrite <- app_assoc.
Qed.

(** ** The batch *)

Lemma fetch_loop_returns (urls : list string) (successful : Z) (w : World) :
  exists n w',
    fetch_loop download_dir env urls successful w = Some (Ok n, w')
    /\ requested w' = (requested w ++ attempted urls)%list
    /\ (successful <= n <= successful + Z.of_nat (List.length (attempted urls)))%Z
    /\ later w w'.
Proof.
  revert successful w; induction urls as [|url rest IH]; intros successful w.
  - exists successful, w. cbn. rewrite app_nil_r.
    split; [reflexivity|]. split; [reflexivity|]. split; [lia | constructor].
  - cbn [fetch_loop]. unfold attempted. cbn [List.map List.filter].
    fold (attempted rest).
    destruct (String.eqb (strip url) "") eqn:Hempty; cbn [negb].
    + apply IH.
    + destruct (fetch_single_image_cases (strip url) w) as (ok & w1 & Hf & Hreq & _).
      unfold bind. rewrite Hf.
      destruct (IH (if ok then successful + 1 else successful)%Z w1)
        as (n & w' & Hloop & Hreq' & Hn & Hlater).
      exists n, w'. split; [exact Hloop|].
      split; [rewrite Hreq', Hreq, <- app_assoc; reflexivity|].
      split; [cbn [List.length]; destruct ok; lia|].
      clear - Hf Hlater. induction Hlater as [|u wa oka wb _ IHl Hstep].
      * eapply later_step; [constructor | exact Hf].
      * eapply later_step; [exact IHl | exact Hstep].
Qed.

Lemma fetch_images_returns (urls : string + list string) (w : World) :
  let entries :=
    match urls with inl s => List.map strip (split "," s) | inr l => l end in
  exists n w',
    fetch_images download_dir env urls w
    = Some (Ok (n, Z.of_nat (List.length entries)), w')
    /\ requested w' = (requested w ++ attempted entries)%list
    /\ (0 <= n <= Z.of_nat (List.length (attempted entries)))%Z.
Proof.
  intros entries. unfold fetch_images. fold entries.
  destruct (fetch_loop_returns entries 0%Z w) as (n & w' & Hloop & Hreq & Hn & _).
  exists n, w'. unfold bind. rewrite Hloop.
  split; [reflexivity|]. split; [exact Hreq | lia].
Qed.

End Pipeline.

(** ** [fetch_single_image] on a console that can refuse a line *)

Section ConsolePipeline.
Context `{PyLib}.
Variable download_dir : string.
Variable env : Env.
Variable console : Printer.

Lemma console_body_cases (url : string) (w : World) :
  (exists e w1,
      Console.fetch_body download_dir env console url w = Some (Raise e, w1))
  \/ (exists b w1,
        Console.fetch_body download_dir env console url w = Some (Ok b, w1)
        /\ fetch_body download_dir env url w = Some (Ok b, w1)).
Proof.
  unfold Console.fetch_body, fetch_body, bind, Console.print, print, get,
    lift_result, ret.
  cbn [add_line requested stdout].
  destruct (console (stdout w) (" Connecting to: " ++ url)) as [|partial e];
    [|left; eauto].
  cbn [add_line requested stdout].
  destruct (requests_get env (requested w) url) as [response|e]; [|left; eauto].
  unfold raise_for_status.
  destruct ((400 <=? status_code response) && (status_code response <? 600))%Z;
    [left; unfold raise; eauto|].
  unfold ret.
  destruct (validate_image_response response) as [content_type|e]; [|left; eauto].
  destruct (get_safe_filename url (Some content_type)) as [filename|e];
    [|left; eauto].
  destruct (content response) as [payload|e]; [|left; eauto].
  unfold Console.is_duplicate_content, is_duplicate_content, bind,
    Console.print, print, ret.
  cbn [downloaded_hashes add_request add_line stdout].
  destruct (downloaded_hashes w !! calculate_file_hash payload) as [existing|].
  { destruct (console _ _) as [|partial e]; [right; eauto | left; eauto]. }
  unfold lift_option.
  destruct (get_unique_filename_returns download_dir (files w) filename)
    as (u & Hu & _).
  change (files (set_hashes _ (add_request url (add_line _ w)))) with (files w).
  rewrite Hu. unfold save.
  change (requested (set_hashes _ (add_request url (add_line _ w))))
    with (requested w ++ [url])%list.
  destruct (open_write env (requested w ++ [url]) u payload) as [|e|part e];
    [|left; eauto|left; eauto].
  cbn [stdout set_files set_hashes add_request add_line].
  destruct (console _ _) as [|partial e]; [|left; eauto].
  cbn [stdout set_files set_hashes add_request add_line].
  destruct (console _ _) as [|partial e]; [|left; eauto].
  cbn [stdout set_files set_hashes add_request add_line].
  destruct (console _ _) as [|partial e]; [|left; eauto].
  right. eauto.
Qed.

Lemma console_handler_returns (url : string) (e : exn) (w : World) :
  exists r w', Console.handler console url e w = Some (r, w').
Proof.
  unfold Console.handler, bind, Console.print.
  destruct e;
    (destruct (console (stdout w) _) as [|? ?]; [|eauto];
     cbn [stdout add_line];
     destruct (console _ _) as [|? ?]; [|eauto];
     cbn [stdout add_line];
     destruct (console _ _) as [|? ?]; eauto).
Qed.

(** A fetch returns in every world and on every console: with the boolean
    of the [try] block, or with false after an exception of the [try]
    block and the lines of its [except] clause, or with the exception that
    a [print] of that clause raised. *)
Lemma console_fetch_cases (url : string) (w : World) :
  (exists b w1,
      Console.fetch_body download_dir env console url w = Some (Ok b, w1)
      /\ fetch_body download_dir env url w = Some (Ok b, w1)
      /\ Console.fetch_single_image download_dir env console url w
         = Some (Ok b, w1))
  \/ (exists e w1 w',
        Console.fetch_body download_dir env console url w = Some (Raise e, w1)
        /\ Console.handler console url e w1 = Some (Ok tt, w')
        /\ Console.fetch_single_image download_dir env console url w
           = Some (Ok false, w'))
  \/ (exists e w1 e' w',
        Console.fetch_body download_dir env console url w = Some (Raise e, w1)
        /\ Console.handler console url e w1 = Some (Raise e', w')
        /\ Console.fetch_single_image download_dir env console url w
           = Some (Raise e', w')).
Proof.
  unfold Console.fetch_single_image.
  destruct (console_body_cases url w) as [(e & w1 & Hb) | (b & w1 & Hb & Hbase)].
  - right. rewrite Hb. unfold bind, ret.
    destruct (console_handler_returns url e w1) as ([[]|e'] & w' & Hh).
    + left. exists e, w1, w'. rewrite Hh. auto.
    + right. exists e, w1, e', w'. rewrite Hh. auto.
  - left. exists b, w1. rewrite Hb. auto.
Qed.



(** On a console that takes every line the methods are the ones of the
    class above. *)
Lemma console_print_accepting (line : string) (w : World) :
  (forall out line, console out line = Printed) ->
  Console.print console line w = print line w.
Proof. intros Hacc. unfold Console.print. now rewrite Hacc. Qed.

Lemma bind_ext {A B : Type} (m m' : M A) (k k' : A -> M B) (w : World) :
  m w = m' w -> (forall a w1, k a w1 = k' a w1) -> bind m k w = bind m' k' w.
Proof.
  intros Hm Hk. unfold bind. rewrite Hm.
  destruct (m' w) as [[[a|e] w1]|]; [apply Hk | reflexivity | reflexivity].
Qed.

Section Accepting.
Hypothesis Hacc : forall out line, console out line = Printed.

Lemma console_body_accepting (url : string) (w : World) :
  Console.fetch_body download_dir env console url w
  = fetch_body download_dir env url w.
Proof.
  unfold Console.fetch_body, fetch_body.
  apply bind_ext; [now apply console_print_accepting | intros _ w1].
  apply bind_ext; [reflexivity | intros response w2].
  apply bind_ext; [reflexivity | intros _ w3].
  apply bind_ext; [reflexivity | intros content_type w4].
  apply bind_ext; [reflexivity | intros filename w5].
  apply bind_ext; [reflexivity | intros payload w6].
  apply bind_ext.
  { unfold Console.is_duplicate_content, is_duplicate_content.
    destruct (downloaded_hashes w6 !! calculate_file_hash payload); [|reflexivity].
    apply bind_ext; [now apply console_print_accepting | reflexivity]. }
  intros [|] w7; [reflexivity|].
  apply bind_ext; [reflexivity | intros u w8].
  apply bind_ext; [reflexivity | intros _ w9].
  apply bind_ext; [now apply console_print_accepting | intros _ w10].
  apply bind_ext; [now apply console_print_accepting | intros _ w11].
  apply bind_ext; [now apply console_print_accepting | reflexivity].
Qed.

Lemma console_handler_accepting (url : string) (e : exn) (w : World) :
  Console.handler console url e w = handler url e w.
Proof.
  unfold Console.handler, handler.
  apply bind_ext; [|intros _ w1; now apply console_print_accepting].
  destruct e;
    (apply bind_ext; [now apply console_print_accepting
                     | intros _ w1; now apply console_print_accepting]).
Qed.

Lemma console_fetch_accepting (url : string) (w : World) :
  Console.fetch_single_image download_dir env console url w
  = fetch_single_image download_dir env url w.
Proof.
  unfold Console.fetch_single_image, fetch_single_image.
  rewrite console_body_accepting.
  destruct (fetch_body download_dir env url w) as [[[b|e] w1]|]; try reflexivity.
  apply bind_ext; [apply console_handler_accepting | reflexivity].
Qed.

Lemma console_loop_accepting (urls : list string) (successful : Z) (w : World) :
  Console.fetch_loop download_dir env console urls successful w
  = fetch_loop download_dir env urls successful w.
Proof.
  revert successful w; induction urls as [|url rest IH]; intros successful w;
    [reflexivity|].
  cbn [Console.fetch_loop fetch_loop].
  destruct (String.eqb (strip url) ""); [apply IH|].
  apply bind_ext; [apply console_fetch_accepting | intros ok w1; apply IH].
Qed.

Lemma console_images_accepting (urls : string + list string) (w : World) :
  Console.fetch_images download_dir env console urls w
  = fetch_images download_dir env urls w.
Proof.
  unfold Console.fetch_images, fetch_images.
  apply bind_ext; [apply console_loop_accepting | reflexivity].
Qed.

End Accepting.

(** An exception leaves [fetch_single_image] only as the exception of a
    [print] in an [except] clause or of the [print()] after it. *)
Lemma exception_leaves_through_handler (url : string) (w : World) (e' : exn)
                                       (w' : World) :
  Console.fetch_single_image download_dir env console url w = Some (Raise e', w') ->
  exists e w1,
    Console.fetch_body download_dir env console url w = Some (Raise e, w1)
    /\ Console.handler console url e w1 = Some (Raise e', w').
Proof.
  intros Hf.
  destruct (console_fetch_cases url w)
    as [(b & w1 & _ & _ & Hf') | [(e & w1 & w'' & _ & _ & Hf')
                                 | (e & w1 & e'' & w'' & Hb & Hh & Hf')]];
    rewrite Hf' in Hf; try discriminate.
  injection Hf as -> ->. eauto.
Qed.


End ConsolePipeline.

(** * Further properties *)

(** ** Strings *)

Lemma length_map_chars (f : ascii -> ascii) (s : string) :
  String.length (map_chars f s) = String.length s.
Proof. induction s as [|c s IH]; simpl; [reflexivity | now rewrite IH]. Qed.

Lemma chars_nil (s : string) : chars s = [] -> s = "".
Proof. destruct s; [reflexivity | discriminate]. Qed.

Lemma lower_char_idempotent (c : ascii) : lower_char (lower_char c) = lower_char c.
Proof. destruct c as [[] [] [] [] [] [] [] []]; reflexivity. Qed.

Lemma lower_idempotent (s : string) : lower (lower s) = lower s.
Proof.
  induction s as [|c s IH]; simpl; [reflexivity|].
  now rewrite lower_char_idempotent, IH.
Qed.

Lemma lower_empty (s : string) : lower s = "" -> s = "".
Proof. destruct s; [reflexivity | discriminate]. Qed.

Lemma rstrip_idempotent (s : string) : rstrip (rstrip s) = rstrip s.
Proof.
  induction s as [|c s IH]; [reflexivity|]. cbn [rstrip].
  destruct (rstrip s) as [|d r] eqn:Hr.
  - destruct (isspace c) eqn:Hc; [reflexivity|]. cbn [rstrip]. now rewrite Hc.
  - cbn [rstrip]. cbn [rstrip] in IH. now rewrite IH.
Qed.

Lemma lstrip_left_clean (s : string) : left_clean (lstrip s).
Proof.
  induction s as [|c s IH]; simpl; [exact I|].
  destruct (isspace c) eqn:Hc; [exact IH | exact Hc].
Qed.

Lemma lstrip_clean (s : string) : left_clean s -> lstrip s = s.
Proof. destruct s as [|c s]; simpl; [reflexivity | now intros ->]. Qed.

Lemma rstrip_left_clean (s : string) : left_clean s -> left_clean (rstrip s).
Proof.
  destruct s as [|c s]; [intros _; exact I|]. cbn [rstrip left_clean]. intros Hc.
  destruct (rstrip s); [rewrite Hc|]; exact Hc.
Qed.

Lemma strip_idempotent (s : string) : strip (strip s) = strip s.
Proof.
  unfold strip.
  rewrite (lstrip_clean (rstrip (lstrip s))).
  - apply rstrip_idempotent.
  - apply rstrip_left_clean, lstrip_left_clean.
Qed.


(** ** File names *)

(** X1.  Sanitizing keeps the length of a name, leaves a name of allowed
    characters as it is, and done twice is the same as done once. *)
Theorem sanitize_idempotent (filename : string) :
  String.length (sanitize filename) = String.length filename
  /\ sanitize (sanitize filename) = sanitize filename
  /\ ((forall c, In c (chars filename) -> In c (chars safe_chars)) ->
      sanitize filename = filename).
Proof.
  split; [apply length_map_chars|]. split.
  - apply sanitize_id. intros c Hc. now apply sanitize_safe in Hc.
  - intros Hall. apply sanitize_id. intros c Hc. apply contains_In. auto.
Qed.

Lemma sanitize_idempotent_witness :
  (forall c, In c (chars "photo_1.jpg") -> In c (chars safe_chars))
  /\ sanitize "photo_1.jpg" = "photo_1.jpg".
Proof.
  assert (forall c, In c (chars "photo_1.jpg") -> In c (chars safe_chars)) as Hall.
  { intros c Hc. apply contains_In. simpl in Hc.
    repeat (destruct Hc as [<-|Hc]; [reflexivity|]). destruct Hc. }
  split; [exact Hall|].
  exact (proj2 (proj2 (sanitize_idempotent "photo_1.jpg")) Hall).
Defined.

Section FileNames.
Context `{PyLib}.

Lemma candidate_not_empty (path : string) (content_type : option string) :
  candidate_filename path content_type <> "".
Proof.
  unfold candidate_filename.
  destruct (String.eqb_spec (unquote (basename path)) "") as [Heq|Hne]; cbn [orb].
  - rewrite append_cons. discriminate.
  - destruct (negb (contains "." (unquote (basename path))));
      [rewrite append_cons; discriminate | exact Hne].
Qed.

(** X2.  A name that [get_safe_filename] returns is never empty, and it
    has as many characters as the candidate it was made from. *)
Theorem get_safe_filename_not_empty (url : string) (content_type : option string)
                                    (filename : string) :
  get_safe_filename url content_type = Ok filename ->
  filename <> ""
  /\ exists path,
       urlparse_path url = Ok path
       /\ String.length filename
          = String.length (candidate_filename path content_type).
Proof.
  unfold get_safe_filename.
  destruct (urlparse_path url) as [path|e]; [|discriminate].
  intros [= <-].
  assert (String.length (sanitize (candidate_filename path content_type))
          = String.length (candidate_filename path content_type)) as Hlen
    by apply length_map_chars.
  split; [|exists path; auto].
  intros Heq. rewrite Heq in Hlen.
  pose proof (candidate_not_empty path content_type) as Hne.
  destruct (candidate_filename path content_type); [congruence | discriminate].
Qed.

(** X3.  When the decoded last segment of the path is not empty and has a
    dot, the name is that segment sanitized, whatever the content type;
    it is the segment itself when all its characters are allowed. *)
Theorem get_safe_filename_keeps_name (url : string) (content_type : option string)
                                     (path : string) :
  urlparse_path url = Ok path ->
  unquote (basename path) <> "" ->
  In "."%char (chars (unquote (basename path))) ->
  get_safe_filename url content_type = Ok (sanitize (unquote (basename path)))
  /\ get_safe_filename url content_type = get_safe_filename url None
  /\ ((forall c, In c (chars (unquote (basename path))) -> In c (chars safe_chars)) ->
      get_safe_filename url content_type = Ok (unquote (basename path))).
Proof.
  intros Hpath Hne Hdot.
  assert (forall ct, get_safe_filename url ct
                     = Ok (sanitize (unquote (basename path)))) as Hall.
  { intros ct. unfold get_safe_filename, candidate_filename. rewrite Hpath.
    destruct (String.eqb_spec (unquote (basename path)) ""); [contradiction|].
    apply contains_In in Hdot. now rewrite Hdot. }
  split; [apply Hall|]. split; [now rewrite !Hall|].
  intros Hsafe. rewrite Hall. f_equal. apply sanitize_id.
  intros c Hc. apply contains_In. auto.
Qed.

End FileNames.

Lemma get_safe_filename_not_empty_witness :
  @get_safe_filename CPython.lib "http://example.com/" None = Ok "downloaded_image.jpg"
  /\ "downloaded_image.jpg" <> "".
Proof.
  assert (@get_safe_filename CPython.lib "http://example.com/" None
          = Ok "downloaded_image.jpg") as Hname by (vm_compute; reflexivity).
  split; [exact Hname|].
  exact (proj1 (@get_safe_filename_not_empty CPython.lib _ _ _ Hname)).
Defined.

Lemma get_safe_filename_keeps_name_witness :
  @urlparse_path CPython.lib "http://example.com/img/cat%20one.JPG?size=2"
  = Ok "/img/cat%20one.JPG"
  /\ @get_safe_filename CPython.lib "http://example.com/img/cat%20one.JPG?size=2"
       (Some "image/png")
     = Ok "cat_one.JPG".
Proof.
  split; [vm_compute; reflexivity|].
  destruct (@get_safe_filename_keeps_name CPython.lib
              "http://example.com/img/cat%20one.JPG?size=2" (Some "image/png")
              "/img/cat%20one.JPG") as (Hname & _).
  - vm_compute; reflexivity.
  - vm_compute; discriminate.
  - vm_compute. do 7 right. left. reflexivity.
  - rewrite Hname. vm_compute. reflexivity.
Defined.

(** X4.  The extension is one of the six of the table, and it is found
    without regard to the case of the content type: two content types
    that agree in lower case get the same extension. *)
Theorem extension_ignores_case (a b : string) :
  In (_get_extension_from_content_type (Some a))
     [".jpg"; ".png"; ".gif"; ".webp"; ".bmp"; ".svg"]
  /\ _get_extension_from_content_type (Some (lower a))
     = _get_extension_from_content_type (Some a)
  /\ (lower a = lower b ->
      _get_extension_from_content_type (Some a)
      = _get_extension_from_content_type (Some b)).
Proof.
  assert (forall s, _get_extension_from_content_type (Some s)
                    = dict_get extensions (lower s) ".jpg") as Hget.
  { intros [|c s]; reflexivity. }
  split; [apply extension_cases|]. split.
  - now rewrite !Hget, lower_idempotent.
  - intros Heq. now rewrite !Hget, Heq.
Qed.

Lemma extension_ignores_case_witness :
  lower "Image/PNG" = lower "image/png"
  /\ _get_extension_from_content_type (Some "Image/PNG") = ".png".
Proof.
  split; [reflexivity|].
  rewrite (proj2 (proj2 (extension_ignores_case "Image/PNG" "image/png")) eq_refl).
  reflexivity.
Defined.


(** ** Collision resolution *)

Lemma append_assoc (a b c : string) : (a ++ b) ++ c = a ++ (b ++ c).
Proof.
  induction a as [|d a IH]; [reflexivity|].
  rewrite !append_cons. now rewrite IH.
Qed.

Lemma take_drop (n : nat) (s : string) : take n s ++ drop n s = s.
Proof.
  revert s; induction n as [|n IH]; intros [|c s]; try reflexivity.
  cbn [take drop]. rewrite append_cons. now rewrite IH.
Qed.

Lemma drop_append (a b : string) : drop (String.length a) (a ++ b) = b.
Proof. induction a as [|c a IH]; [now destruct b | exact IH]. Qed.

Lemma take_append (a b : string) : take (String.length a) (a ++ b) = a.
Proof.
  induction a as [|c a IH]; [now destruct b|].
  rewrite append_cons. cbn [String.length take]. now rewrite IH.
Qed.

Lemma rfind_lower_bound (c : ascii) (s : string) : (-1 <= rfind c s)%Z.
Proof.
  induction s as [|d s IH]; simpl; [lia|].
  destruct (0 <=? rfind c s)%Z; [lia|]. destruct (Ascii.eqb c d); lia.
Qed.

Lemma rfind_absent (c : ascii) (s : string) :
  rfind c s = (-1)%Z <-> ~ In c (chars s).
Proof.
  induction s as [|d s IH]; simpl; [tauto|].
  pose proof (rfind_lower_bound c s) as Hlo.
  destruct (Z.leb_spec 0 (rfind c s)) as [Hfound|Hnone].
  - split; [lia|]. intros Hno. exfalso. apply Hno. right.
    destruct (in_dec ascii_dec c (chars s)) as [Hin|Hout]; [exact Hin|].
    apply IH in Hout. lia.
  - assert (rfind c s = (-1)%Z) as Hr by lia. apply IH in Hr.
    destruct (Ascii.eqb_spec c d) as [->|Hne].
    + split; [discriminate | intros Hno; exfalso; apply Hno; auto].
    + split; [intros _ [Heq|Hin]; [congruence | contradiction] | reflexivity].
Qed.

Lemma rfind_append (c : ascii) (a b : string) :
  (0 <= rfind c b)%Z -> rfind c (a ++ b) = (len a + rfind c b)%Z.
Proof.
  intros Hb. unfold len. induction a as [|d a IH]; [rewrite append_nil; simpl; lia|].
  rewrite append_cons. cbn [rfind String.length]. rewrite IH.
  destruct (Z.leb_spec 0 (Z.of_nat (String.length a) + rfind c b)); lia.
Qed.

(** The part of a string from the last occurrence of [c] on. *)
Lemma drop_rfind (c : ascii) (s : string) :
  (0 <= rfind c s)%Z ->
  exists rest,
    drop (Z.to_nat (rfind c s)) s = String c rest
    /\ ~ In c (chars rest)
    /\ (rfind c s + 1 + len rest = len s)%Z.
Proof.
  unfold len. induction s as [|d s IH]; simpl; [lia|].
  pose proof (rfind_lower_bound c s) as Hlo.
  destruct (Z.leb_spec 0 (rfind c s)) as [Hfound|Hnone].
  - intros _. destruct (IH Hfound) as (rest & Hdrop & Hno & Hlen).
    exists rest. replace (Z.to_nat (rfind c s + 1)) with (S (Z.to_nat (rfind c s))) by lia.
    cbn [drop]. split; [exact Hdrop|]. split; [exact Hno | lia].
  - destruct (Ascii.eqb_spec c d) as [->|Hne]; [|lia].
    intros _. exists s. cbn [drop Z.to_nat]. split; [reflexivity|].
    split; [apply rfind_absent; lia | lia].
Qed.

Lemma stem_suffix (name : string) : path_stem name ++ path_suffix name = name.
Proof.
  unfold path_stem, path_suffix. destruct (has_suffix name).
  - apply take_drop.
  - clear. induction name as [|c s IH]; [reflexivity|].
    rewrite append_cons. now rewrite IH.
Qed.

(** X5.  Renaming keeps the extension.  For a name with a suffix (it has a
    dot that is neither its first nor its last character), the probe
    "stem_k" followed by the suffix has the same suffix, and its stem is
    the old stem with "_k" appended; stem and suffix always make up the
    name. *)
Theorem new_filename_keeps_suffix (name : string) (k : nat) :
  path_stem name ++ path_suffix name = name
  /\ (has_suffix name = true ->
      path_suffix (new_filename (path_stem name) (path_suffix name) k)
      = path_suffix name
      /\ path_stem (new_filename (path_stem name) (path_suffix name) k)
         = path_stem name ++ "_" ++ pretty k).
Proof.
  split; [apply stem_suffix|]. intros Hsuf.
  pose proof (stem_suffix name) as Hname.
  unfold path_stem, path_suffix in *. rewrite Hsuf in *.
  unfold has_suffix in Hsuf. apply andb_true_iff in Hsuf as [Hlo Hhi].
  apply Z.ltb_lt in Hlo, Hhi.
  destruct (drop_rfind "." name) as (rest & Hdrop & Hno & Hlen); [lia|].
  set (stem := take (Z.to_nat (rfind "." name)) name) in *.
  rewrite Hdrop in *. unfold new_filename.
  assert (rest <> "") as Hrest.
  { intros ->. unfold len in Hlen, Hhi. simpl in Hlen. lia. }
  set (front := stem ++ "_" ++ pretty k).
  assert (stem ++ "_" ++ pretty k ++ String "." rest = front ++ String "." rest) as ->.
  { unfold front. now rewrite !append_assoc. }
  assert (rfind "." (String "." rest) = 0%Z) as Hdot.
  { cbn [rfind]. apply rfind_absent in Hno. rewrite Hno. reflexivity. }
  assert (rfind "." (front ++ String "." rest) = len front) as Hfind.
  { rewrite rfind_append; rewrite Hdot; lia. }
  assert (0 < len front)%Z as Hfront.
  { unfold front, len. rewrite !length_append. simpl. lia. }
  assert (has_suffix (front ++ String "." rest) = true) as Hsuf'.
  { unfold has_suffix. rewrite Hfind.
    apply andb_true_iff. split; [now apply Z.ltb_lt|]. apply Z.ltb_lt.
    unfold len. rewrite length_append. simpl.
    destruct rest; [contradiction|]. simpl. lia. }
  rewrite Hsuf', Hfind. unfold len. rewrite Nat2Z.id.
  split; [apply drop_append | apply take_append].
Qed.

Lemma new_filename_keeps_suffix_witness :
  has_suffix "photo.final.jpg" = true
  /\ path_suffix (new_filename (path_stem "photo.final.jpg")
                               (path_suffix "photo.final.jpg") 3) = ".jpg"
  /\ new_filename (path_stem "photo.final.jpg") (path_suffix "photo.final.jpg") 3
     = "photo.final_3.jpg".
Proof.
  split; [reflexivity|]. split; [|vm_compute; reflexivity].
  rewrite (proj1 (proj2 (new_filename_keeps_suffix "photo.final.jpg" 3) eq_refl)).
  reflexivity.
Defined.


Section Fresh.
Variable download_dir : string.

Lemma path_exists_insert (fs : gmap string string) (name data : string) :
  path_exists (<[name := data]> fs) name = true.
Proof.
  unfold path_exists.
  destruct (String.eqb name "" || String.eqb name "." || String.eqb name "..");
    [reflexivity|].
  apply bool_decide_eq_true. rewrite lookup_insert_eq. eauto.
Qed.

(** X6.  The name that [get_unique_filename] returns is not in the
    directory; it is the candidate exactly when the candidate is free;
    asked again for the name it returned, the method returns it unchanged;
    and once a file of that name is there, the same candidate gets another
    name. *)
Theorem get_unique_filename_fresh (fs : gmap string string) (filename r : string) :
  get_unique_filename download_dir fs filename = Some r ->
  fs !! r = None
  /\ (r = filename <-> path_exists fs filename = false)
  /\ get_unique_filename download_dir fs r = Some r
  /\ forall data r2,
       get_unique_filename download_dir (<[r := data]> fs) filename = Some r2 ->
       r2 <> r.
Proof.
  intros Hr.
  destruct (get_unique_filename_returns download_dir fs filename) as (r' & Hr' & Hfree).
  rewrite Hr in Hr'. injection Hr' as <-.
  split; [now apply path_exists_false|]. split; [|split].
  - split; [intros <-; exact Hfree|].
    intros Hex. unfold get_unique_filename, get_unique_filename_fuel in Hr.
    rewrite Hex in Hr. cbn [negb] in Hr. now injection Hr as <-.
  - unfold get_unique_filename, get_unique_filename_fuel. now rewrite Hfree.
  - intros data r2 Hr2 ->.
    destruct (get_unique_filename_returns download_dir (<[r := data]> fs) filename)
      as (r3 & Hr3 & Hfree3).
    rewrite Hr2 in Hr3. injection Hr3 as <-.
    rewrite path_exists_insert in Hfree3. discriminate.
Qed.

End Fresh.

Lemma get_unique_filename_fresh_witness :
  let fs := <["photo.jpg" := "old"]> (∅ : gmap string string) in
  get_unique_filename "Fetched_Images" fs "photo.jpg" = Some "photo_1.jpg"
  /\ fs !! "photo_1.jpg" = None
  /\ get_unique_filename "Fetched_Images" fs "photo_1.jpg" = Some "photo_1.jpg".
Proof.
  intros fs.
  assert (get_unique_filename "Fetched_Images" fs "photo.jpg" = Some "photo_1.jpg")
    as Hr by (vm_compute; reflexivity).
  destruct (get_unique_filename_fresh "Fetched_Images" fs _ _ Hr)
    as (Hfree & _ & Hagain & _).
  split; [exact Hr|]. split; [exact Hfree | exact Hagain].
Defined.


(** ** Where a fetch writes *)

Lemma pretty_N_go_digits (x : N) (s : string) :
  (forall c, In c (chars s) -> contains c "0123456789" = true) ->
  forall c, In c (chars (pretty_N_go x s)) -> contains c "0123456789" = true.
Proof.
  revert s. induction (N.lt_wf_0 x) as [x _ IH]. intros s Hs.
  destruct (decide (x = 0)%N) as [->|Hne]; [now rewrite pretty_N_go_0|].
  rewrite pretty_N_go_step by lia.
  apply IH; [apply N.div_lt; lia|].
  intros c [<-|Hc]; [|now apply Hs].
  unfold pretty_N_char. repeat case_match; reflexivity.
Qed.

Lemma pretty_nat_digits (k : nat) (c : ascii) :
  In c (chars (pretty k)) -> contains c "0123456789" = true.
Proof.
  unfold pretty, pretty_nat, pretty, pretty_N.
  destruct (decide (N.of_nat k = 0)%N).
  - intros [<-|[]]. reflexivity.
  - apply pretty_N_go_digits. intros d [].
Qed.

Lemma pretty_nat_plain (k : nat) : plain (pretty k).
Proof. intros Hin. apply pretty_nat_digits in Hin. discriminate. Qed.

Lemma plain_append (a b : string) : plain a -> plain b -> plain (a ++ b).
Proof.
  unfold plain. rewrite chars_append. intros Ha Hb Hin.
  apply in_app_or in Hin. tauto.
Qed.

Lemma in_take (n : nat) (s : string) (c : ascii) :
  In c (chars (take n s)) -> In c (chars s).
Proof.
  revert s; induction n as [|n IH]; intros [|d s]; simpl; try tauto.
  intros [->|Hin]; auto.
Qed.

Lemma in_drop (n : nat) (s : string) (c : ascii) :
  In c (chars (drop n s)) -> In c (chars s).
Proof.
  revert s; induction n as [|n IH]; intros [|d s]; simpl; try tauto.
  intros Hin. right. now apply IH.
Qed.

Lemma plain_stem (name : string) : plain name -> plain (path_stem name).
Proof.
  unfold plain, path_stem. intros Hp. destruct (has_suffix name); [|exact Hp].
  intros Hin. apply in_take in Hin. contradiction.
Qed.

Lemma plain_suffix (name : string) : plain name -> plain (path_suffix name).
Proof.
  unfold plain, path_suffix. intros Hp. destruct (has_suffix name); [|intros []].
  intros Hin. apply in_drop in Hin. contradiction.
Qed.

Lemma split_pieces (sep : ascii) (s piece : string) :
  In piece (split sep s) -> ~ In sep (chars piece).
Proof.
  revert piece; induction s as [|c s IH]; intros piece; cbn [split].
  - intros [<-|[]] [].
  - destruct (Ascii.eqb_spec c sep) as [->|Hne].
    + intros [<-|Hin]; [intros [] | now apply IH].
    + destruct (split sep s) as [|h t] eqn:Hsplit.
      * intros [<-|[]] [Heq|[]]. congruence.
      * intros [<-|Hin].
        -- intros [Heq|Hh]; [congruence|]. apply (IH h); [left; reflexivity | exact Hh].
        -- apply IH. right. exact Hin.
Qed.

Lemma path_name_of_plain (p : string) : plain (path_name_of p).
Proof.
  unfold path_name_of.
  set (parts := List.filter _ (split "/" p)).
  assert (forall x, In x parts -> plain x) as Hparts.
  { intros x Hx. apply filter_In in Hx as [Hx _]. now apply split_pieces in Hx. }
  clearbody parts. induction parts as [|x [|y parts] IH]; cbn [List.last].
  - intros [].
  - apply Hparts. left; reflexivity.
  - apply IH. intros z Hz. apply Hparts. right; exact Hz.
Qed.

Lemma probe_is_new_filename (fs : gmap string string) (stem suffix : string)
                            (fuel counter : nat) (r : string) :
  probe fs stem suffix fuel counter = Some r ->
  exists k, r = new_filename stem suffix k.
Proof.
  intros Hp. pose proof (probe_spec fs stem suffix fuel counter) as Hspec.
  rewrite Hp in Hspec. destruct Hspec as (k & _ & -> & _). eauto.
Qed.

Section Children.
Variable download_dir : string.

Lemma unique_name_plain (fs : gmap string string) (filename r : string) :
  plain filename ->
  get_unique_filename download_dir fs filename = Some r ->
  plain r /\ r <> "" /\ r <> "." /\ r <> "..".
Proof.
  intros Hplain Hr.
  destruct (get_unique_filename_returns download_dir fs filename) as (r' & Hr' & Hfree).
  rewrite Hr in Hr'. injection Hr' as <-.
  assert (r <> "" /\ r <> "." /\ r <> "..") as Hnames.
  { unfold path_exists in Hfree.
    destruct (String.eqb_spec r ""), (String.eqb_spec r "."), (String.eqb_spec r "..");
      try discriminate. auto. }
  split; [|exact Hnames].
  unfold get_unique_filename, get_unique_filename_fuel in Hr.
  destruct (path_exists fs filename); cbn [negb] in Hr; [|now injection Hr as <-].
  apply probe_is_new_filename in Hr as (k & ->).
  assert (plain (joined_name download_dir filename)) as Hjoined.
  { unfold joined_name.
    destruct (String.eqb filename "" || String.eqb filename ".");
      [apply path_name_of_plain | exact Hplain]. }
  unfold new_filename.
  apply plain_append; [now apply plain_stem|].
  apply plain_append; [intros [Heq|[]]; discriminate|].
  apply plain_append; [apply pretty_nat_plain | now apply plain_suffix].
Qed.

(** X7.  For a candidate without path separator, the name that
    [get_unique_filename] returns has no separator either and is none of
    "", "." and "..": joined to the download directory it is a path
    directly below it, whatever the directory is called and holds. *)
Theorem get_unique_filename_stays_inside (fs : gmap string string)
                                         (filename r : string) :
  plain filename ->
  get_unique_filename download_dir fs filename = Some r ->
  plain r /\ r <> "" /\ r <> "." /\ r <> "..".
Proof. apply unique_name_plain. Qed.

End Children.

Lemma get_unique_filename_stays_inside_witness :
  plain ".."
  /\ get_unique_filename "../Fetched_Images" ∅ ".." = Some ".._1"
  /\ plain ".._1".
Proof.
  assert (plain "..") as Hplain.
  { intros Hin. simpl in Hin. intuition discriminate. }
  assert (get_unique_filename "../Fetched_Images" ∅ ".." = Some ".._1") as Hr
    by (vm_compute; reflexivity).
  split; [exact Hplain|]. split; [exact Hr|].
  exact (proj1 (get_unique_filename_stays_inside "../Fetched_Images" ∅ _ _ Hplain Hr)).
Defined.


(** ** Entries of a batch *)

Lemma length_split (s : string) : List.length (split "," s) = S (commas s).
Proof.
  unfold commas. induction s as [|c s IH]; [reflexivity|].
  cbn [split chars List.filter].
  destruct (Ascii.eqb_spec c ",") as [->|Hne].
  - cbn [Ascii.eqb Bool.eqb List.length]. now rewrite IH.
  - assert (Ascii.eqb "," c = false) as ->.
    { apply Ascii.eqb_neq. congruence. }
    destruct (split "," s); [discriminate | exact IH].
Qed.


Lemma attempted_strip (urls : list string) :
  attempted (List.map strip urls) = attempted urls.
Proof.
  unfold attempted. rewrite List.map_map.
  f_equal. apply map_ext. intros u. apply strip_idempotent.
Qed.


(** ** What a fetch leaves behind, on any console *)

Lemma safe_is_plain (filename : string) :
  (forall c, In c (chars filename) -> contains c safe_chars = true) ->
  plain filename.
Proof. intros Hsafe Hin. apply Hsafe in Hin. discriminate. Qed.

Section ConsoleFrame.
Context `{PyLib}.
Variable download_dir : string.
Variable env : Env.
Variable console : Printer.

Lemma downloads_plain (url : string) (w : World) (p f : string) :
  downloads env url w p f -> plain f.
Proof.
  intros (response & ct & _ & _ & _ & Hname & _).
  unfold get_safe_filename in Hname.
  destruct (urlparse_path url); [|discriminate]. injection Hname as <-.
  apply safe_is_plain. intros c. apply sanitize_safe.
Qed.

Local Ltac unchanged :=
  eexists _, _; split; [reflexivity|]; split; [reflexivity|]; left;
  split; reflexivity.

(** The [try] block returns or raises in every world and on every
    console.  It leaves index and directory as they were, or it has
    entered the hash of a new payload into the index; in that case the
    directory is as it was or has one entry more, under the name that
    [get_unique_filename] chose. *)
Lemma console_body_frame (url : string) (w : World) :
  exists r w1,
    Console.fetch_body download_dir env console url w = Some (r, w1)
    /\ (requested w1 = requested w \/ requested w1 = (requested w ++ [url])%list)
    /\ ((downloaded_hashes w1 = downloaded_hashes w /\ files w1 = files w)
        \/ exists p f u,
             downloads env url w p f
             /\ downloaded_hashes w !! calculate_file_hash p = None
             /\ downloaded_hashes w1
                = <[calculate_file_hash p := f]> (downloaded_hashes w)
             /\ get_unique_filename download_dir (files w) f = Some u
             /\ (files w1 = files w
                 \/ exists data, files w1 = <[u := data]> (files w))).
Proof.
  unfold Console.fetch_body, bind, Console.print, get, lift_result, ret.
  destruct (console (stdout w) (" Connecting to: " ++ url)) as [|partial e].
  2:{ eexists _, _; split; [reflexivity|]. split; [left; reflexivity|].
      left; split; reflexivity. }
  cbn [add_line requested stdout].
  destruct (requests_get env (requested w) url) as [response|e] eqn:Hget.
  2:{ eexists _, _; split; [reflexivity|]. split; [right; reflexivity|].
      left; split; reflexivity. }
  unfold raise_for_status.
  destruct ((400 <=? status_code response) && (status_code response <? 600))%Z
    eqn:Hst.
  { eexists _, _; split; [reflexivity|]. split; [right; reflexivity|].
    left; split; reflexivity. }
  unfold ret.
  destruct (validate_image_response response) as [content_type|e] eqn:Hval.
  2:{ eexists _, _; split; [reflexivity|]. split; [right; reflexivity|].
      left; split; reflexivity. }
  destruct (get_safe_filename url (Some content_type)) as [filename|e] eqn:Hname.
  2:{ eexists _, _; split; [reflexivity|]. split; [right; reflexivity|].
      left; split; reflexivity. }
  destruct (content response) as [payload|e] eqn:Hbody.
  2:{ eexists _, _; split; [reflexivity|]. split; [right; reflexivity|].
      left; split; reflexivity. }
  assert (downloads env url w payload filename) as Hdl.
  { exists response, content_type. auto. }
  unfold Console.is_duplicate_content, bind, Console.print, ret.
  cbn [downloaded_hashes add_request add_line stdout].
  destruct (downloaded_hashes w !! calculate_file_hash payload)
    as [existing|] eqn:Hidx.
  { destruct (console _ _) as [|partial e];
      (eexists _, _; split; [reflexivity|]; split; [right; reflexivity|];
       left; split; reflexivity). }
  unfold lift_option.
  destruct (get_unique_filename_returns download_dir (files w) filename)
    as (u & Hu & _).
  change (files (set_hashes _ (add_request url (add_line _ w)))) with (files w).
  rewrite Hu. unfold save.
  change (requested (set_hashes _ (add_request url (add_line _ w))))
    with (requested w ++ [url])%list.
  change (files (set_hashes _ (add_request url (add_line _ w)))) with (files w).
  assert (forall r w1,
             requested w1 = (requested w ++ [url])%list ->
             downloaded_hashes w1
             = <[calculate_file_hash payload := filename]> (downloaded_hashes w) ->
             (files w1 = files w
              \/ exists data, files w1 = <[u := data]> (files w)) ->
             forall m : option (result bool * World), m = Some (r, w1) ->
             exists r w1,
               m = Some (r, w1)
               /\ (requested w1 = requested w
                   \/ requested w1 = (requested w ++ [url])%list)
               /\ ((downloaded_hashes w1 = downloaded_hashes w
                    /\ files w1 = files w)
                   \/ exists p f u,
                        downloads env url w p f
                        /\ downloaded_hashes w !! calculate_file_hash p = None
                        /\ downloaded_hashes w1
                           = <[calculate_file_hash p := f]> (downloaded_hashes w)
                        /\ get_unique_filename download_dir (files w) f = Some u
                        /\ (files w1 = files w
                            \/ exists data, files w1 = <[u := data]> (files w))))
    as Hnew.
  { intros r w1 Hreq Hh Hfs m ->. exists r, w1. split; [reflexivity|].
    split; [right; exact Hreq|]. right. exists payload, filename, u. auto. }
  destruct (open_write env (requested w ++ [url]) u payload) as [|e|part e].
  - cbn [stdout set_files set_hashes add_request add_line].
    destruct (console _ _) as [|partial e].
    2:{ eapply Hnew; [| | |reflexivity]; [reflexivity | reflexivity|].
        right; eexists; reflexivity. }
    cbn [stdout set_files set_hashes add_request add_line].
    destruct (console _ _) as [|partial e].
    2:{ eapply Hnew; [| | |reflexivity]; [reflexivity | reflexivity|].
        right; eexists; reflexivity. }
    cbn [stdout set_files set_hashes add_request add_line].
    destruct (console _ _) as [|partial e];
      (eapply Hnew; [| | |reflexivity]; [reflexivity | reflexivity|];
       right; eexists; reflexivity).
  - eapply Hnew; [| | |reflexivity]; [reflexivity | reflexivity|].
    left; reflexivity.
  - eapply Hnew; [| | |reflexivity]; [reflexivity | reflexivity|].
    right; eexists; reflexivity.
Qed.

(** The [except] clauses only print. *)
Lemma console_handler_frame (url : string) (e : exn) (w : World) :
  exists r w',
    Console.handler console url e w = Some (r, w')
    /\ requested w' = requested w
    /\ downloaded_hashes w' = downloaded_hashes w
    /\ files w' = files w.
Proof.
  unfold Console.handler, bind, Console.print.
  destruct e;
    (destruct (console (stdout w) _) as [|? ?];
       [|eexists _, _; repeat split; reflexivity];
     cbn [stdout add_line];
     destruct (console _ _) as [|? ?];
       [|eexists _, _; repeat split; reflexivity];
     cbn [stdout add_line];
     destruct (console _ _) as [|? ?];
       eexists _, _; repeat split; reflexivity).
Qed.

Lemma console_fetch_frame (url : string) (w : World) :
  exists r w',
    Console.fetch_single_image download_dir env console url w = Some (r, w')
    /\ (requested w' = requested w \/ requested w' = (requested w ++ [url])%list)
    /\ ((downloaded_hashes w' = downloaded_hashes w /\ files w' = files w)
        \/ exists p f u,
             downloads env url w p f
             /\ downloaded_hashes w !! calculate_file_hash p = None
             /\ downloaded_hashes w'
                = <[calculate_file_hash p := f]> (downloaded_hashes w)
             /\ get_unique_filename download_dir (files w) f = Some u
             /\ (files w' = files w
                 \/ exists data, files w' = <[u := data]> (files w))).
Proof.
  unfold Console.fetch_single_image.
  destruct (console_body_frame url w) as ([b|e] & w1 & -> & Hreq & Hframe).
  - exists (Ok b), w1. auto.
  - destruct (console_handler_frame url e w1) as (r & w' & Hh & Hr & Hd & Hf).
    unfold bind. rewrite Hh.
    exists (match r with Ok _ => Ok false | Raise e' => Raise e' end), w'.
    split; [destruct r as [[]|]; reflexivity|].
    rewrite Hr, Hd, Hf. auto.
Qed.

(** What is in the directory and in the index before a fetch is there
    afterwards, whether the fetch returns or raises. *)
Lemma console_fetch_keeps (url : string) (w : World) (r : result bool) (w' : World) :
  Console.fetch_single_image download_dir env console url w = Some (r, w') ->
  (forall name data, files w !! name = Some data -> files w' !! name = Some data)
  /\ (forall h f, downloaded_hashes w !! h = Some f ->
                  downloaded_hashes w' !! h = Some f).
Proof.
  intros Hf.
  destruct (console_fetch_frame url w) as (r' & w'' & Hf' & _ & Hframe).
  rewrite Hf in Hf'. injection Hf' as <- <-.
  destruct Hframe as [[-> ->] | (p & f & u & _ & Hidx & -> & Hu & Hfs)];
    [auto|].
  split.
  - destruct Hfs as [-> | (data & ->)]; [auto|].
    intros name data' Hentry. rewrite lookup_insert_ne; [exact Hentry|].
    intros <-.
    destruct (get_unique_filename_returns download_dir (files w) f)
      as (u' & Hu' & Hfree).
    rewrite Hu in Hu'. injection Hu' as <-.
    apply path_exists_false in Hfree. congruence.
  - intros h g Hentry. rewrite lookup_insert_ne; [exact Hentry | congruence].
Qed.

Lemma console_loop_keeps (urls : list string) (successful : Z) (w : World) :
  exists r w',
    Console.fetch_loop download_dir env console urls successful w = Some (r, w')
    /\ (forall name data, files w !! name = Some data -> files w' !! name = Some data)
    /\ (forall h f, downloaded_hashes w !! h = Some f ->
                    downloaded_hashes w' !! h = Some f).
Proof.
  revert successful w; induction urls as [|url rest IH]; intros successful w.
  - exists (Ok successful), w. auto.
  - cbn [Console.fetch_loop].
    destruct (String.eqb (strip url) ""); [apply IH|].
    destruct (console_fetch_frame (strip url) w) as (r & w1 & Hf & _).
    destruct (console_fetch_keeps _ _ _ _ Hf) as [Hfs Hidx].
    unfold bind. rewrite Hf. destruct r as [ok|e].
    + destruct (IH (if ok then successful + 1 else successful)%Z w1)
        as (r' & w' & Hloop & Hfs' & Hidx').
      exists r', w'. split; [exact Hloop|]. split; eauto.
    + exists (Raise e), w1. auto.
Qed.

(** X9.  No fetch replaces or removes an entry of the download directory.
    What is there before [fetch_single_image], or before a whole batch of
    [fetch_images], is there afterwards with the same content: on every
    console, for every answer of the network and of the disk, and whether
    the call returns or raises. *)
Theorem existing_files_are_kept :
  (forall url w r w' name data,
      Console.fetch_single_image download_dir env console url w = Some (r, w') ->
      files w !! name = Some data ->
      files w' !! name = Some data)
  /\ (forall urls w r w' name data,
        Console.fetch_images download_dir env console urls w = Some (r, w') ->
        files w !! name = Some data ->
        files w' !! name = Some data).
Proof.
  split.
  - intros url w r w' name data Hf. now apply (console_fetch_keeps _ _ _ _ Hf).
  - intros urls w r w' name data. unfold Console.fetch_images, bind, ret.
    match goal with
    | |- context [Console.fetch_loop _ _ _ ?l ?s w] =>
        destruct (console_loop_keeps l s w) as (r1 & w1 & -> & Hfs & _)
    end.
    destruct r1; intros [= <- <-]; apply Hfs.
Qed.

(** X10.  The index only grows.  An entry of [downloaded_hashes] is never
    replaced or removed by a fetch or by a batch: the name recorded for a
    hash is the name of the first payload with that hash, on every console
    and whether the call returns or raises. *)
Theorem index_entries_are_kept :
  (forall url w r w' h f,
      Console.fetch_single_image download_dir env console url w = Some (r, w') ->
      downloaded_hashes w !! h = Some f ->
      downloaded_hashes w' !! h = Some f)
  /\ (forall urls w r w' h f,
        Console.fetch_images download_dir env console urls w = Some (r, w') ->
        downloaded_hashes w !! h = Some f ->
        downloaded_hashes w' !! h = Some f).
Proof.
  split.
  - intros url w r w' h f Hf. now apply (console_fetch_keeps _ _ _ _ Hf).
  - intros urls w r w' h f. unfold Console.fetch_images, bind, ret.
    match goal with
    | |- context [Console.fetch_loop _ _ _ ?l ?s w] =>
        destruct (console_loop_keeps l s w) as (r1 & w1 & -> & _ & Hidx)
    end.
    destruct r1; intros [= <- <-]; apply Hidx.
Qed.

(** X11.  A file that a fetch adds is directly below the download
    directory: its name has no path separator and is none of "", "." and
    "..", whatever the URL and the headers say.  This holds for a file
    left behind by a failed write as well, and on every console. *)
Theorem new_files_are_children (url : string) (w : World) (r : result bool)
                               (w' : World) (name : string) :
  Console.fetch_single_image download_dir env console url w = Some (r, w') ->
  files w !! name = None ->
  is_Some (files w' !! name) ->
  plain name /\ name <> "" /\ name <> "." /\ name <> "..".
Proof.
  intros Hf Hfree Hnew.
  destruct (console_fetch_frame url w) as (r' & w'' & Hf' & _ & Hframe).
  rewrite Hf in Hf'. injection Hf' as <- <-.
  destruct Hframe as [[_ Hfs] | (p & f & u & Hdl & _ & _ & Hu & [Hfs | (data & Hfs)])].
  - rewrite Hfs, Hfree in Hnew. destruct Hnew as [? [=]].
  - rewrite Hfs, Hfree in Hnew. destruct Hnew as [? [=]].
  - rewrite Hfs in Hnew.
    destruct (decide (u = name)) as [->|Hne].
    + eapply unique_name_plain; [|exact Hu].
      eapply downloads_plain; exact Hdl.
    + rewrite lookup_insert_ne, Hfree in Hnew by exact Hne.
      destruct Hnew as [? [=]].
Qed.



Lemma console_loop_strip (urls : list string) (successful : Z) (w : World) :
  Console.fetch_loop download_dir env console (List.map strip urls) successful w
  = Console.fetch_loop download_dir env console urls successful w.
Proof.
  revert successful w; induction urls as [|url rest IH]; intros successful w;
    [reflexivity|].
  cbn [List.map Console.fetch_loop]. rewrite strip_idempotent.
  destruct (String.eqb (strip url) ""); [apply IH|].
  unfold bind.
  destruct (Console.fetch_single_image download_dir env console (strip url) w)
    as [[[ok|e] w1]|]; [|reflexivity|reflexivity].
  apply IH.
Qed.


(** X12.  [fetch_images] treats a string like the list of its
    comma-separated pieces, and a list like the list of its stripped
    entries: white space around an entry changes neither the fetches nor
    the counts nor what is printed. *)
Theorem fetch_images_string_is_list (s : string) (urls : list string) (w : World) :
  Console.fetch_images download_dir env console (inl s) w
  = Console.fetch_images download_dir env console (inr (split "," s)) w
  /\ Console.fetch_images download_dir env console (inr (List.map strip urls)) w
     = Console.fetch_images download_dir env console (inr urls) w.
Proof.
  unfold Console.fetch_images, bind. rewrite !length_map.
  split; rewrite console_loop_strip; reflexivity.
Qed.



End ConsoleFrame.


(** ** Validation and the name, together *)

Lemma dict_get_missing (d : list (string * string)) (key default : string) :
  ~ In key (List.map fst d) -> dict_get d key default = default.
Proof.
  induction d as [|[k v] d IH]; [reflexivity|]. cbn [List.map fst In dict_get].
  intros Hno. destruct (String.eqb_spec k key) as [->|Hne]; [tauto|].
  apply IH. tauto.
Qed.

Section ValidatedName.
Context `{PyLib}.

Lemma validated_type (response : Response) (content_type : string) :
  validate_image_response response = Ok content_type ->
  startswith "image/" content_type = true
  /\ lower content_type = content_type
  /\ content_type <> "".
Proof.
  unfold validate_image_response.
  set (ct := lower (match header_content_type response with
                    | Some v => v | None => "" end)).
  destruct (startswith "image/" ct) eqn:Hst; cbn [negb]; [|discriminate].
  intros Hok.
  assert (content_type = ct) as ->.
  { destruct (header_content_length response) as [[|c cl]|];
      try (now injection Hok as <-).
    destruct (py_int (String c cl)) as [n|e]; [|discriminate].
    destruct (n >? max_file_size)%Z; [|now injection Hok as <-].
    destruct (format_mb n); discriminate. }
  split; [exact Hst|]. split; [apply lower_idempotent|].
  intros Heq. rewrite Heq in Hst. discriminate.
Qed.

(** X8.  In the pipeline the fallback name takes its extension from the
    validated content type as it stands.  When the URL has no usable name,
    the file is called "downloaded_image" followed by the table's entry
    for the lower-cased Content-Type header, and by ".jpg" when that
    header, though it starts with "image/", is not exactly a key of the
    table: a type with parameters or an image type the table lacks. *)
Theorem validated_fallback_name (url : string) (response : Response)
                                (content_type path : string) :
  validate_image_response response = Ok content_type ->
  urlparse_path url = Ok path ->
  unquote (basename path) = "" \/ ~ In "."%char (chars (unquote (basename path))) ->
  get_safe_filename url (Some content_type)
  = Ok ("downloaded_image" ++ dict_get extensions content_type ".jpg")
  /\ (~ In content_type (List.map fst extensions) ->
      get_safe_filename url (Some content_type) = Ok "downloaded_image.jpg").
Proof.
  intros Hval Hpath Hcand.
  destruct (validated_type _ _ Hval) as (_ & Hlower & Hne).
  assert (_get_extension_from_content_type (Some content_type)
          = dict_get extensions content_type ".jpg") as Hext.
  { destruct content_type; [contradiction|].
    unfold _get_extension_from_content_type. now rewrite Hlower. }
  assert (get_safe_filename url (Some content_type)
          = Ok ("downloaded_image" ++ dict_get extensions content_type ".jpg")) as Hname.
  { unfold get_safe_filename, candidate_filename. rewrite Hpath.
    assert (String.eqb (unquote (basename path)) ""
            || negb (contains "." (unquote (basename path))) = true) as ->.
    { destruct Hcand as [-> | Hno]; [reflexivity|].
      apply orb_true_iff; right. apply negb_true_iff.
      destruct (contains "." (unquote (basename path))) eqn:Hc; [|reflexivity].
      apply contains_In in Hc. contradiction. }
    now rewrite fallback_is_safe, Hext. }
  split; [exact Hname|].
  intros Hmissing. rewrite Hname. now rewrite dict_get_missing.
Qed.

End ValidatedName.


(** ** [main] *)

Lemma summary_all (successful total : Z) :
  (1 <= total)%Z ->
  (Console.summary successful total = " All images fetched successfully!"
   <-> successful = total).
Proof.
  intros Htotal. unfold Console.summary.
  destruct (Z.eqb_spec successful total) as [->|Hne].
  - assert ((total >? 0)%Z = true) as -> by (apply Z.gtb_lt; lia).
    split; reflexivity.
  - cbn [andb]. destruct (successful >? 0)%Z.
    + split; [intros Heq; discriminate Heq | contradiction].
    + split; [intros Heq; discriminate Heq | contradiction].
Qed.

Lemma fold_add_line (lines : list string) (w : World) :
  downloaded_hashes (List.fold_left (fun w' line => add_line line w') lines w)
  = downloaded_hashes w
  /\ files (List.fold_left (fun w' line => add_line line w') lines w) = files w
  /\ requested (List.fold_left (fun w' line => add_line line w') lines w)
     = requested w
  /\ stdout (List.fold_left (fun w' line => add_line line w') lines w)
     = (stdout w ++ lines)%list.
Proof.
  revert w; induction lines as [|l lines IH]; intros w; cbn [List.fold_left].
  - rewrite app_nil_r. auto.
  - destruct (IH (add_line l w)) as (-> & -> & -> & ->). cbn.
    rewrite <- app_assoc. auto.
Qed.

Section MainProperties.
Context `{PyLib}.
Variable env : Env.
Variable console : Printer.
Variable session : Console.Session.
Hypothesis Hacc : forall out line, console out line = Printed.

Lemma bind_print_accepting {B : Type} (line : string) (k : unit -> M B) (w : World) :
  bind (Console.print console line) k w = k tt (add_line line w).
Proof. unfold bind, Console.print. now rewrite Hacc. Qed.

(** [main] on a console that takes every line, step by step. *)
Lemma main_reads (w : World) :
  Console.main env console session w
  = match Console.typed session with
    | Raise e =>
        Some (Raise e, List.fold_left (fun w' line => add_line line w') opening w)
    | Ok line =>
        if String.eqb (strip line) ""
        then Some (Ok tt,
                   add_line "  No URLs provided. Ubuntu teaches us to share - please provide URLs to fetch."
                     (List.fold_left (fun w' line => add_line line w') opening w))
        else
          match Console.mkdir session with
          | Raise e =>
              Some (Raise e,
                    add_line "" (List.fold_left (fun w' line => add_line line w')
                                                opening w))
          | Ok _ =>
              match fetch_images Console.default_download_dir env (inl (strip line))
                                 (before_batch w) with
              | Some (Ok counts, w1) =>
                  Some (Ok tt,
                        List.fold_left (fun w' line => add_line line w')
                          (Console.summary (fst counts) (snd counts) :: closing) w1)
              | Some (Raise e, w1) => Some (Raise e, w1)
              | None => None
              end
          end
    end.
Proof.
  unfold Console.main, Console.input.
  rewrite !bind_print_accepting. cbv beta.
  unfold bind at 1. rewrite bind_print_accepting. unfold lift_result.
  cbn [List.fold_left opening closing].
  destruct (Console.typed session) as [line|e]; [|reflexivity].
  destruct (String.eqb (strip line) "");
    [now rewrite (console_print_accepting console _ _ Hacc)|].
  rewrite bind_print_accepting.
  unfold bind at 1, Console.__init__.
  destruct (Console.mkdir session) as [[]|e]; [|reflexivity].
  unfold bind at 1.
  rewrite (console_images_accepting Console.default_download_dir env console Hacc).
  unfold before_batch. cbn [List.fold_left opening].
  destruct (fetch_images Console.default_download_dir env (inl (strip line)) _)
    as [[[counts|e] w1]|]; [|reflexivity|reflexivity].
  rewrite !bind_print_accepting.
  now rewrite (console_print_accepting console _ _ Hacc).
Qed.

(** X15.  On a blank line [main] stops before the fetcher exists: on a
    console that takes every line it returns without a request, without
    creating the directory (the outcome of [mkdir] plays no part) and with
    the files as they were; the last line it prints says that no URLs were
    provided. *)
Theorem main_blank_line (line : string) (w : World) :
  Console.typed session = Ok line ->
  strip line = "" ->
  exists w',
    Console.main env console session w = Some (Ok tt, w')
    /\ requested w' = requested w
    /\ files w' = files w
    /\ downloaded_hashes w' = downloaded_hashes w
    /\ stdout w'
       = (stdout w ++ opening
          ++ ["  No URLs provided. Ubuntu teaches us to share - please provide URLs to fetch."])%list.
Proof.
  intros Htyped Hblank. rewrite main_reads, Htyped, Hblank. cbn [String.eqb].
  eexists. split; [reflexivity|].
  destruct (fold_add_line opening w) as (Hd & Hf & Hr & Hs).
  cbn [requested files downloaded_hashes stdout add_line].
  rewrite Hd, Hf, Hr, Hs, <- app_assoc. auto.
Qed.

(** X16.  On a console that takes every line [main] always returns or
    raises, and raises only what [input] or the constructor's [mkdir]
    raise: no answer of the network and no failure of a write makes it
    raise.  With a line that is not blank and a directory that can be
    created, it requests the entries of the line that are not blank, in
    order. *)
Theorem main_outcome (w : World) :
  exists r w',
    Console.main env console session w = Some (r, w')
    /\ match Console.typed session with
       | Raise e => r = Raise e /\ requested w' = requested w /\ files w' = files w
       | Ok line =>
           if String.eqb (strip line) ""
           then r = Ok tt /\ requested w' = requested w /\ files w' = files w
           else
             match Console.mkdir session with
             | Raise e =>
                 r = Raise e /\ requested w' = requested w /\ files w' = files w
             | Ok _ =>
                 r = Ok tt
                 /\ requested w'
                    = (requested w ++ attempted (split "," (strip line)))%list
             end
       end.
Proof.
  rewrite main_reads.
  destruct (fold_add_line opening w) as (Hd & Hf & Hr & Hs).
  destruct (Console.typed session) as [line|e];
    [|eexists _, _; split; [reflexivity|auto]].
  destruct (String.eqb (strip line) "");
    [eexists _, _; split; [reflexivity|]; cbn; auto|].
  destruct (Console.mkdir session) as [[]|e];
    [|eexists _, _; split; [reflexivity|]; cbn; auto].
  destruct (fetch_images_returns Console.default_download_dir env (inl (strip line))
              (before_batch w)) as (n & w1 & Hfetch & Hreq & _).
  cbv zeta in Hfetch. rewrite Hfetch.
  eexists _, _. split; [reflexivity|]. split; [reflexivity|].
  destruct (fold_add_line (Console.summary (fst (n, Z.of_nat (List.length
              (List.map strip (split "," (strip line))))))
              (snd (n, Z.of_nat (List.length (List.map strip
              (split "," (strip line)))))) :: closing) w1)
    as (_ & _ & -> & _).
  rewrite Hreq, attempted_strip. unfold before_batch. cbn [requested set_hashes add_line].
  now rewrite Hr.
Qed.

(** X17.  The summary of [main], on a console that takes every line.
    After the batch [main] prints one summary line and the four closing
    lines.  The total it reports is at least 1.  The line says that all
    images were fetched exactly when the successes equal the total; so a
    line with a blank entry, a trailing comma for one, never gets that
    summary, even when every URL in it was fetched. *)
Theorem main_summary (line : string) (w : World) :
  Console.typed session = Ok line ->
  strip line <> "" ->
  Console.mkdir session = Ok tt ->
  exists successful total w1 w',
    Console.fetch_images Console.default_download_dir env console
      (inl (strip line)) (before_batch w)
    = Some (Ok (successful, total), w1)
    /\ Console.main env console session w = Some (Ok tt, w')
    /\ stdout w' = (stdout w1 ++ Console.summary successful total :: closing)%list
    /\ (1 <= total)%Z
    /\ (Console.summary successful total = " All images fetched successfully!"
        <-> successful = total)
    /\ (List.length (attempted (split "," (strip line)))
        < List.length (split "," (strip line)) ->
        Console.summary successful total <> " All images fetched successfully!").
Proof.
  intros Htyped Hline Hmkdir. rewrite main_reads, Htyped, Hmkdir.
  rewrite (console_images_accepting Console.default_download_dir env console Hacc).
  destruct (String.eqb_spec (strip line) "") as [Hempty|_]; [contradiction|].
  destruct (fetch_images_returns Console.default_download_dir env (inl (strip line))
              (before_batch w)) as (count & w1 & Hfetch & _ & Hcount).
  cbv zeta in Hfetch. rewrite Hfetch. rewrite length_map, attempted_strip in *.
  assert (1 <= Z.of_nat (List.length (split "," (strip line))))%Z as Htotal
    by (rewrite length_split; lia).
  eexists _, _, w1, _. split; [reflexivity|]. split; [reflexivity|].
  cbn [fst snd].
  split; [apply fold_add_line|]. split; [exact Htotal|].
  split; [now apply summary_all|].
  intros Hblank Hall. apply summary_all in Hall; [lia | exact Htotal].
Qed.

End MainProperties.

(** ** The size in MiB *)

Section FloatRange.
Local Open Scope Z_scope.

Lemma round_half_even_bounds (a b : Z) :
  0 < b ->
  a / b <= CPython.round_half_even a b <= a / b + 1
  /\ (2 * (a mod b) < b -> CPython.round_half_even a b = a / b)
  /\ (b < 2 * (a mod b) -> CPython.round_half_even a b = a / b + 1)
  /\ (b = 2 * (a mod b) -> Z.even (a / b) = false ->
      CPython.round_half_even a b = a / b + 1).
Proof.
  intros Hb. unfold CPython.round_half_even.
  destruct (Z.ltb_spec (2 * (a mod b)) b) as [Hlo|Hlo].
  - repeat split; try lia.
  - destruct (Z.ltb_spec b (2 * (a mod b))) as [Hhi|Hhi].
    + repeat split; try lia.
    + destruct (Z.even (a / b)) eqn:Hev; repeat split; try lia; congruence.
Qed.

Lemma to_53_bits_below (n : Z) :
  0 <= n < 2 ^ 1044 - 2 ^ 990 -> CPython.to_53_bits n < 2 ^ 1044.
Proof.
  intros [Hlo Hhi]. unfold CPython.to_53_bits.
  destruct (Z.leb_spec (Z.log2 n + 1) 53) as [Hsmall|Hbig]; [lia|].
  assert (0 < n) as Hpos.
  { destruct (Z.eq_dec n 0) as [->|]; [cbn in Hbig; lia | lia]. }
  destruct (Z.log2_spec n Hpos) as [Hl Hu].
  set (B := Z.log2 n + 1) in *.
  replace (Z.succ (Z.log2 n)) with B in Hu by (unfold B; lia).
  assert (B <= 1044) as HB.
  { destruct (Z.le_gt_cases B 1044) as [|Hgt]; [assumption|].
    assert (2 ^ 1044 <= 2 ^ Z.log2 n) by (apply Z.pow_le_mono_r; unfold B in Hgt; lia).
    lia. }
  set (b := 2 ^ (B - 53)).
  assert (0 < b) as Hb by (apply Z.pow_pos_nonneg; lia).
  assert (2 ^ B = 2 ^ 53 * b) as HBb.
  { unfold b. rewrite <- Z.pow_add_r by lia. f_equal. lia. }
  destruct (round_half_even_bounds n b Hb) as (Hr & Hdown & _).
  pose proof (Z.div_mod n b ltac:(lia)) as Hdm.
  pose proof (Z.mod_pos_bound n b Hb) as Hmod.
  assert (n / b < 2 ^ 53) as Hq.
  { apply Z.div_lt_upper_bound; [exact Hb | lia]. }
  destruct (Z.eq_dec B 1044) as [HeqB|HneB].
  - assert (b = 2 ^ 991) as Hbv by (unfold b; rewrite HeqB; reflexivity).
    destruct (Z.eq_dec (n / b) (2 ^ 53 - 1)) as [Hqe|Hqne].
    + rewrite Hdown.
      * rewrite Hqe, Hbv. reflexivity.
      * rewrite Hqe in Hdm. rewrite Hbv in *.
        change (2 ^ 1044) with (2 ^ 53 * 2 ^ 991) in Hhi.
        change (2 ^ 991) with (2 * 2 ^ 990) in *. lia.
    + assert (CPython.round_half_even n b <= 2 ^ 53 - 1) by lia.
      change (2 ^ 1044) with (2 ^ 53 * 2 ^ 991). rewrite <- Hbv. nia.
  - assert (2 ^ B <= 2 ^ 1043) as Hpow by (apply Z.pow_le_mono_r; lia).
    assert (CPython.round_half_even n b * b <= 2 ^ 53 * b) by nia.
    change (2 ^ 1044) with (2 * 2 ^ 1043). lia.
Qed.

Lemma to_53_bits_above (n : Z) :
  2 ^ 1044 - 2 ^ 990 <= n -> 2 ^ 1044 <= CPython.to_53_bits n.
Proof.
  intros Hlo. unfold CPython.to_53_bits.
  assert (0 < 2 ^ 1044 - 2 ^ 990) as Hthreshold by reflexivity.
  assert (0 < n) as Hpos by lia.
  destruct (Z.log2_spec n Hpos) as [Hl Hu].
  set (B := Z.log2 n + 1) in *.
  replace (Z.succ (Z.log2 n)) with B in Hu by (unfold B; lia).
  replace (Z.log2 n) with (B - 1) in Hl by (unfold B; lia).
  assert (1044 <= B) as HB.
  { destruct (Z.le_gt_cases 1044 B) as [|Hlt]; [assumption|].
    assert (2 ^ B <= 2 ^ 1043) by (apply Z.pow_le_mono_r; lia).
    assert (2 ^ 1043 < 2 ^ 1044 - 2 ^ 990) by reflexivity. lia. }
  destruct (Z.leb_spec B 53) as [Hsmall|Hbig]; [lia|].
  set (b := 2 ^ (B - 53)).
  assert (0 < b) as Hb by (apply Z.pow_pos_nonneg; lia).
  assert (2 ^ B = 2 ^ 53 * b) as HBb.
  { unfold b. rewrite <- Z.pow_add_r by lia. f_equal. lia. }
  assert (2 ^ (B - 1) = 2 ^ 52 * b) as HBb'.
  { unfold b. rewrite <- Z.pow_add_r by lia. f_equal. lia. }
  destruct (round_half_even_bounds n b Hb) as (Hr & _ & Hup & Htie).
  pose proof (Z.div_mod n b ltac:(lia)) as Hdm.
  pose proof (Z.mod_pos_bound n b Hb) as Hmod.
  assert (n / b < 2 ^ 53) as Hq.
  { apply Z.div_lt_upper_bound; [exact Hb | lia]. }
  assert (2 ^ 52 <= n / b) as Hq'.
  { apply Z.div_le_lower_bound; [exact Hb | lia]. }
  destruct (Z.eq_dec B 1044) as [HeqB|HneB].
  - assert (b = 2 ^ 991) as Hbv by (unfold b; rewrite HeqB; reflexivity).
    assert (n / b = 2 ^ 53 - 1) as Hqe.
    { rewrite Hbv in *.
      change (2 ^ 1044) with (2 ^ 53 * 2 ^ 991) in Hlo.
      change (2 ^ 990) with (2 ^ 991 - 2 ^ 990) in Hlo.
      assert (0 < 2 ^ 990 < 2 ^ 991) by (split; reflexivity).
      nia. }
    assert (CPython.round_half_even n b = 2 ^ 53) as ->.
    { assert (b <= 2 * (n mod b)) as Hhalf.
      { rewrite Hqe in Hdm. rewrite Hbv in *.
        change (2 ^ 1044) with (2 ^ 53 * 2 ^ 991) in Hlo.
        change (2 ^ 991) with (2 * 2 ^ 990) in *. lia. }
      destruct (Z.eq_dec b (2 * (n mod b))) as [Heq|Hne].
      - rewrite Htie; [lia | exact Heq | rewrite Hqe; reflexivity].
      - rewrite Hup; lia. }
    rewrite Hbv. reflexivity.
  - assert (2 ^ 1044 <= 2 ^ (B - 1)) as Hpow by (apply Z.pow_le_mono_r; lia).
    assert (2 ^ 52 * b <= CPython.round_half_even n b * b) by nia.
    lia.
Qed.

(** The division of line 110 raises exactly from (2^1024 - 2^970) MiB on:
    below that every size is formatted, a literal of at most 314 digits
    for one. *)
Lemma format_mb_range (n : Z) :
  (exists size_mb, CPython.format_mb n = Ok size_mb)
  <-> Z.abs n < 2 ^ 1044 - 2 ^ 990.
Proof.
  unfold CPython.format_mb.
  destruct (Z.leb_spec (2 ^ 1044) (CPython.to_53_bits (Z.abs n))) as [Hover|Hfits].
  - split; [intros [s Hs]; discriminate|].
    intros Hlt. pose proof (to_53_bits_below (Z.abs n)) as Hb. lia.
  - split; [|eauto]. intros _.
    destruct (Z.lt_ge_cases (Z.abs n) (2 ^ 1044 - 2 ^ 990)) as [|Hge]; [assumption|].
    pose proof (to_53_bits_above (Z.abs n) Hge). lia.
Qed.

Lemma format_mb_digits (n : Z) :
  Z.abs n < 10 ^ 314 -> exists size_mb, CPython.format_mb n = Ok size_mb.
Proof.
  intros Hn. apply format_mb_range.
  assert (10 ^ 314 < 2 ^ 1044 - 2 ^ 990) by reflexivity. lia.
Qed.

End FloatRange.

(** X18.  The size limit with CPython's division.  For an image content
    type and a declared length over the limit, the result is the
    too-large error, with the size in MiB to one decimal, as long as the
    length is below (2^1024 - 2^970) MiB; from there on the division of
    line 110 raises [OverflowError] and that is the result. *)
Theorem too_large_or_overflow (response : Response) (n : Z) :
  startswith "image/"
    (lower (match header_content_type response with Some v => v | None => "" end))
  = true ->
  @declared_length CPython.lib response = Ok (Some n) ->
  (n > max_file_size)%Z ->
  ((n < 2 ^ 1044 - 2 ^ 990)%Z ->
   exists size_mb,
     CPython.format_mb n = Ok size_mb
     /\ @validate_image_response CPython.lib response
        = Raise (payload_too_large size_mb))
  /\ ((2 ^ 1044 - 2 ^ 990 <= n)%Z ->
      @validate_image_response CPython.lib response
      = Raise (OtherException "integer division result too large for a float")).
Proof.
  intros Hst Hdecl Hgt.
  assert (forall r, CPython.format_mb n = r ->
            @validate_image_response CPython.lib response
            = match r with
              | Raise e => Raise e
              | Ok size_mb => Raise (payload_too_large size_mb)
              end) as Hval.
  { intros r Hr. unfold validate_image_response. rewrite Hst. cbn [negb].
    unfold declared_length in Hdecl.
    destruct (header_content_length response) as [[|c cl]|]; try discriminate.
    destruct (py_int (String c cl)) as [m|e]; [|discriminate].
    injection Hdecl as ->.
    destruct (Z.gtb_spec n max_file_size); [|lia].
    change (@format_mb CPython.lib n) with (CPython.format_mb n).
    now rewrite Hr. }
  unfold max_file_size in Hgt.
  split.
  - intros Hlt.
    destruct (proj2 (format_mb_range n)) as (size_mb & Hfmt); [lia|].
    exists size_mb. split; [exact Hfmt|]. now rewrite (Hval _ Hfmt).
  - intros Hge.
    assert (CPython.format_mb n
            = Raise (OtherException "integer division result too large for a float"))
      as Hfmt.
    { unfold CPython.format_mb.
      pose proof (to_53_bits_above (Z.abs n) ltac:(lia)) as Hover.
      destruct (Z.leb_spec (2 ^ 1044) (CPython.to_53_bits (Z.abs n)));
        [reflexivity | lia]. }
    now rewrite (Hval _ Hfmt).
Qed.

(** * The class on concrete inputs *)

Example sha256_abc :
  CPython.SHA256.hexdigest "abc"
  = "ba7816bf8f01cfea414140de5dae2223b00361a396177a9cb410ff61f20015ad".
Proof. vm_compute. reflexivity. Qed.

Example sha256_two_blocks :
  CPython.SHA256.hexdigest "abcdbcdecdefdefgefghfghighijhijkijkljklmklmnlmnomnopnopq"
  = "248d6a61d20638b8e5c026930c3e6039a33ce45964ff2167f6ecedd419db06c1".
Proof. vm_compute. reflexivity. Qed.

(** C1 as stated fails: [urlparse] rejects a host with an unmatched
    bracket, so [get_safe_filename] raises instead of returning a string;
    and for a path that ends in ".." the result is that very name. *)
Lemma get_safe_filename_counterexample :
  @get_safe_filename CPython.lib "http://[" None = Raise (ValueError "Invalid IPv6 URL")
  /\ @get_safe_filename CPython.lib "http://example.com/.." None = Ok "..".
Proof. split; vm_compute; reflexivity. Qed.

Lemma get_safe_filename_allow_list_witness :
  @urlparse_path CPython.lib "http://example.com/my photo.png" = Ok "/my photo.png"
  /\ exists filename,
       @get_safe_filename CPython.lib "http://example.com/my photo.png" None = Ok filename
       /\ (forall c, In c (chars filename) -> In c (chars safe_chars))
       /\ (forall c, In c (chars filename) -> unsafe_char c = false).
Proof.
  split; [vm_compute; reflexivity|].
  destruct (proj1 (@get_safe_filename_allow_list CPython.lib
                     "http://example.com/my photo.png" None) "/my photo.png")
    as (filename & Hname & _ & Hsafe & Hunsafe); [vm_compute; reflexivity|].
  exists filename. split; [exact Hname|]. split; assumption.
Defined.

Example my_photo :
  @get_safe_filename CPython.lib "http://example.com/my photo.png" None
  = Ok "my_photo.png".
Proof. vm_compute. reflexivity. Qed.

Lemma get_safe_filename_fallback_witness :
  @urlparse_path CPython.lib "http://example.com/gallery/" = Ok "/gallery/"
  /\ @unquote CPython.lib (basename "/gallery/") = ""
  /\ @get_safe_filename CPython.lib "http://example.com/gallery/" (Some "image/png")
     = Ok "downloaded_image.png".
Proof.
  split; [vm_compute; reflexivity|]. split; [vm_compute; reflexivity|].
  destruct (@get_safe_filename_fallback CPython.lib
              "http://example.com/gallery/" (Some "image/png") "/gallery/")
    as [Hname _]; [vm_compute; reflexivity | left; vm_compute; reflexivity |].
  rewrite Hname. vm_compute. reflexivity.
Defined.



(** The division of line 110 at the edge of the floats: the largest
    length whose size in MiB is formatted, and the smallest that raises. *)
Example format_mb_overflow :
  (exists size_mb,
      CPython.format_mb (2 ^ 1044 - 2 ^ 990 - 1) = Ok size_mb
      /\ String.length size_mb = 311
      /\ take 12 size_mb = "179769313486")
  /\ CPython.format_mb (2 ^ 1044 - 2 ^ 990)
     = Raise (OtherException "integer division result too large for a float")
  /\ (exists size_mb, CPython.format_mb (10 ^ 314) = Ok size_mb).
Proof.
  split; [eexists; split; [vm_compute; reflexivity | split; vm_compute; reflexivity]|].
  split; [vm_compute; reflexivity|].
  eexists; vm_compute; reflexivity.
Qed.

Lemma sample_downloads (body url : string) (w : World) (filename : string) :
  @get_safe_filename CPython.lib url (Some "image/png") = Ok filename ->
  @downloads CPython.lib (Sample.serve body) url w body filename.
Proof.
  intros Hname. exists (Sample.response (Some "image/png") None body), "image/png".
  split; [reflexivity|]. split; [reflexivity|]. split; [reflexivity|].
  split; [exact Hname | reflexivity].
Qed.

Lemma second_fetch_is_duplicate_witness :
  exists w1 w3,
    @fetch_single_image CPython.lib "Fetched_Images" (Sample.serve "PNG")
      "http://example.com/a.png" (init ∅) = Some (Ok true, w1)
    /\ @fetch_single_image CPython.lib "Fetched_Images" (Sample.serve "PNG")
         "http://example.org/b.png" w1 = Some (Ok false, w3)
    /\ stdout w3
       = List.app (stdout w1) [" Connecting to: http://example.org/b.png";
                               "  Content identical to already downloaded: a.png"]
    /\ files w3 = files w1
    /\ downloaded_hashes w3 = downloaded_hashes w1.
Proof.
  assert (exists w1,
             @fetch_single_image CPython.lib "Fetched_Images" (Sample.serve "PNG")
               "http://example.com/a.png" (init ∅) = Some (Ok true, w1))
    as [w1 Hfirst] by (eexists; vm_compute; reflexivity).
  assert (@downloads CPython.lib (Sample.serve "PNG") "http://example.com/a.png"
            (init ∅) "PNG" "a.png") as Hdl1.
  { apply sample_downloads. vm_compute. reflexivity. }
  assert (@downloads CPython.lib (Sample.serve "PNG") "http://example.org/b.png"
            w1 "PNG" "b.png") as Hdl2.
  { apply sample_downloads. vm_compute. reflexivity. }
  destruct (proj2 (@second_fetch_is_duplicate CPython.lib "Fetched_Images"
                     (Sample.serve "PNG"))
              _ _ _ _ _ w1 _ _ _ Hdl1 Hfirst (later_refl _ _ _) Hdl2)
    as (existing & w3 & _ & Hnew & Hsecond & Hout & Hfs & Hidx).
  rewrite (Hnew (lookup_empty _)) in Hout.
  exists w1, w3. split; [exact Hfirst|]. split; [exact Hsecond|].
  split; [exact Hout|]. split; assumption.
Defined.

Lemma index_names_candidate_witness :
  let fs := <["a.png" := "old"]> (∅ : gmap string string) in
  exists w' payload filename unique_filename,
    @fetch_single_image CPython.lib "Fetched_Images" (Sample.serve "PNG")
      "http://example.com/a.png" (init fs) = Some (Ok true, w')
    /\ get_unique_filename "Fetched_Images" fs filename = Some unique_filename
    /\ downloaded_hashes w' !! @calculate_file_hash CPython.lib payload = Some filename
    /\ files w' = <[unique_filename := payload]> fs
    /\ (path_exists fs filename = true -> unique_filename <> filename).
Proof.
  intros fs.
  assert (exists w',
             @fetch_single_image CPython.lib "Fetched_Images" (Sample.serve "PNG")
               "http://example.com/a.png" (init fs) = Some (Ok true, w'))
    as [w' Hfetch] by (eexists; vm_compute; reflexivity).
  destruct (@index_names_candidate CPython.lib "Fetched_Images" (Sample.serve "PNG")
              "http://example.com/a.png" (init fs) w' Hfetch)
    as (payload & filename & unique & _ & Hu & Hentry & _ & Hfs & Hne & _).
  exists w', payload, filename, unique.
  split; [exact Hfetch|]. split; [exact Hu|]. split; [exact Hentry|].
  split; [exact Hfs | exact Hne].
Defined.

Example renamed_on_disk :
  let fs := <["a.png" := "old"]> (∅ : gmap string string) in
  match @fetch_single_image CPython.lib "Fetched_Images" (Sample.serve "PNG")
          "http://example.com/a.png" (init fs) with
  | Some (Ok true, w') =>
      downloaded_hashes w' !! CPython.SHA256.hexdigest "PNG" = Some "a.png"
      /\ files w' !! "a_1.png" = Some "PNG"
      /\ files w' !! "a.png" = Some "old"
  | _ => False
  end.
Proof. vm_compute. repeat split. Qed.



(** C3 at the input "": the string splits into one empty entry, so the
    total is 1, not 0; nothing is requested and nothing printed.  A blank
    entry of a list counts in the same way: of two entries one is fetched,
    and the total is 2. *)
Theorem fetch_images_counts_blank_entries :
  (forall (L : PyLib) (download_dir : string) (env : Env) (w : World),
      fetch_images download_dir env (inl "") w = Some (Ok (0, 1)%Z, w))
  /\ match @fetch_images CPython.lib "Fetched_Images" (Sample.serve "PNG")
             (inr ["http://example.com/a.png"; "  "]) (init ∅) with
     | Some (Ok (successful, total), w') =>
         successful = 1%Z /\ total = 2%Z
         /\ requested w' = ["http://example.com/a.png"]
     | _ => False
     end.
Proof.
  split; [intros L download_dir env w; reflexivity|].
  vm_compute. repeat split.
Qed.

(** C4 on a disk that is full during the first fetch: the fetch returns
    false and writes nothing, yet the hash of its payload is in the index
    under the name "a.png".  The next fetch of the same image, with the disk
    writable again, is then reported as a duplicate of "a.png" and skipped,
    so the image is never saved. *)
Theorem failed_save_leaves_index_entry :
  downloaded_hashes (init ∅) !! CPython.SHA256.hexdigest "PNG" = None
  /\ match @fetch_single_image CPython.lib "Fetched_Images" (Sample.disk_full_once "PNG")
             "http://example.com/a.png" (init ∅) with
     | Some (Ok false, w1) =>
         size (files w1) = 0
         /\ downloaded_hashes w1 !! CPython.SHA256.hexdigest "PNG" = Some "a.png"
         /\ match @fetch_single_image CPython.lib "Fetched_Images"
                    (Sample.disk_full_once "PNG") "http://example.com/a.png" w1 with
            | Some (Ok false, w2) =>
                size (files w2) = 0
                /\ List.last (stdout w2) ""
                   = "  Content identical to already downloaded: a.png"
            | _ => False
            end
     | _ => False
     end.
Proof. split; [reflexivity|]. vm_compute. repeat split. Qed.

Example sha256_constants :
  List.length CPython.SHA256.K = 64
  /\ List.nth 0 CPython.SHA256.K 0%Z = 0x428a2f98%Z
  /\ List.nth 63 CPython.SHA256.K 0%Z = 0xc67178f2%Z
  /\ List.nth 0 CPython.SHA256.H0 0%Z = 0x6a09e667%Z
  /\ List.nth 7 CPython.SHA256.H0 0%Z = 0x5be0cd19%Z.
Proof. vm_compute. repeat split. Qed.

(** ** The examples of the specification *)

(** One URL, a PNG of 100 bytes: one file "a.png", one success of one. *)
Example one_image :
  let body := String.concat "" (List.repeat "0123456789" 10) in
  String.length body = 100
  /\ match @fetch_images CPython.lib "Fetched_Images" (Sample.serve body)
             (inl "http://x/a.png") (init ∅) with
     | Some (Ok (successful, total), w') =>
         successful = 1%Z /\ total = 1%Z
         /\ files w' !! "a.png" = Some body /\ size (files w') = 1
     | _ => False
     end.
Proof. vm_compute. repeat split. Qed.

(** The same URL twice: the file is written once, the second is reported
    as a duplicate; one success of two. *)
Example same_image_twice :
  match @fetch_images CPython.lib "Fetched_Images" (Sample.serve "PNG")
          (inl "http://x/a.png,http://x/a.png") (init ∅) with
  | Some (Ok (successful, total), w') =>
      successful = 1%Z /\ total = 2%Z
      /\ files w' !! "a.png" = Some "PNG" /\ size (files w') = 1
      /\ List.last (stdout w') ""
         = "  Content identical to already downloaded: a.png"
  | _ => False
  end.
Proof. vm_compute. repeat split. Qed.

(** A text/html response: the fetch fails, nothing is written. *)
Example not_an_image :
  match @fetch_images CPython.lib "Fetched_Images"
          (Sample.answer (Sample.response (Some "text/html") None "<html>"))
          (inl "http://x/page") (init ∅) with
  | Some (Ok (successful, total), w') =>
      successful = 0%Z /\ total = 1%Z /\ size (files w') = 0
      /\ List.nth 2 (stdout w') ""
         = "   URL does not point to an image. Content-Type: text/html"
  | _ => False
  end.
Proof. vm_compute. repeat split. Qed.

(** A declared length of 60000000 bytes: the fetch fails before the body
    is read, nothing is written and nothing enters the index. *)
Example too_large :
  match @fetch_images CPython.lib "Fetched_Images"
          (Sample.answer (Sample.response (Some "image/png") (Some "60000000") "PNG"))
          (inl "http://x/a.png") (init ∅) with
  | Some (Ok (successful, total), w') =>
      successful = 0%Z /\ total = 1%Z /\ size (files w') = 0
      /\ size (downloaded_hashes w') = 0
      /\ List.nth 2 (stdout w') "" = "   Image too large: 57.2MB (max: 50MB)"
  | _ => False
  end.
Proof. vm_compute. repeat split. Qed.

(** ** The further properties on concrete inputs *)

Lemma validated_fallback_name_witness :
  let response :=
    Sample.response (Some "image/png; charset=binary") None "PNG" in
  @validate_image_response CPython.lib response = Ok "image/png; charset=binary"
  /\ @get_safe_filename CPython.lib "http://example.com/view?id=7"
       (Some "image/png; charset=binary")
     = Ok "downloaded_image.jpg".
Proof.
  intros response.
  assert (@validate_image_response CPython.lib response
          = Ok "image/png; charset=binary") as Hval by (vm_compute; reflexivity).
  assert (@urlparse_path CPython.lib "http://example.com/view?id=7" = Ok "/view")
    as Hpath by (vm_compute; reflexivity).
  assert (~ In "."%char (chars (@unquote CPython.lib (basename "/view")))) as Hdot.
  { vm_compute. intuition discriminate. }
  assert (~ In "image/png; charset=binary" (List.map fst extensions)) as Hkey.
  { vm_compute. intuition discriminate. }
  split; [exact Hval|].
  exact (proj2 (@validated_fallback_name CPython.lib "http://example.com/view?id=7"
                  response _ "/view" Hval Hpath (or_intror Hdot)) Hkey).
Defined.


Lemma new_files_are_children_witness :
  exists w',
    @Console.fetch_single_image CPython.lib "Fetched_Images" (Sample.serve "PNG")
      Sample.utf8_console "http://example.com/..%2F..%2Fetc%2Fpasswd.png" (init ∅)
    = Some (Ok true, w')
    /\ files w' !! ".._.._etc_passwd.png" = Some "PNG"
    /\ plain ".._.._etc_passwd.png".
Proof.
  assert (exists w',
             @Console.fetch_single_image CPython.lib "Fetched_Images"
               (Sample.serve "PNG") Sample.utf8_console
               "http://example.com/..%2F..%2Fetc%2Fpasswd.png" (init ∅)
             = Some (Ok true, w')
             /\ files w' !! ".._.._etc_passwd.png" = Some "PNG")
    as (w' & Hf & Hnew) by (eexists; split; vm_compute; reflexivity).
  exists w'. split; [exact Hf|]. split; [exact Hnew|].
  apply (@new_files_are_children CPython.lib _ _ _ _ _ _ _ ".._.._etc_passwd.png" Hf);
    [apply lookup_empty | rewrite Hnew; eauto].
Defined.



Lemma main_blank_line_witness :
  exists w',
    @Console.main CPython.lib (Sample.serve "PNG") Sample.utf8_console
      {| Console.typed := Ok "   ";
         Console.mkdir := Raise (OtherException "[Errno 13] Permission denied: 'Fetched_Images'") |}
      (init ∅)
    = Some (Ok tt, w')
    /\ requested w' = [].
Proof.
  destruct (@main_blank_line CPython.lib (Sample.serve "PNG") Sample.utf8_console
              {| Console.typed := Ok "   ";
                 Console.mkdir := Raise (OtherException "[Errno 13] Permission denied: 'Fetched_Images'") |}
              (fun _ _ => eq_refl)
              "   " (init ∅) eq_refl eq_refl) as (w' & Hmain & Hreq & _).
  exists w'. split; [exact Hmain | exact Hreq].
Defined.

Lemma main_outcome_witness :
  exists w',
    @Console.main CPython.lib (Sample.serve "PNG") Sample.utf8_console
      {| Console.typed := Raise (OtherException "EOF when reading a line");
         Console.mkdir := Ok tt |}
      (init ∅)
    = Some (Raise (OtherException "EOF when reading a line"), w')
    /\ requested w' = [].
Proof.
  destruct (@main_outcome CPython.lib (Sample.serve "PNG") Sample.utf8_console
              {| Console.typed := Raise (OtherException "EOF when reading a line");
                 Console.mkdir := Ok tt |}
              (fun _ _ => eq_refl) (init ∅)) as (r & w' & Hmain & Hr & Hreq & _).
  exists w'. rewrite Hmain, Hr. split; [reflexivity | exact Hreq].
Defined.

Lemma main_summary_witness :
  exists w',
    @Console.main CPython.lib (Sample.serve "PNG") Sample.utf8_console
      {| Console.typed := Ok "http://example.com/a.png,"; Console.mkdir := Ok tt |}
      (init ∅)
    = Some (Ok tt, w')
    /\ List.nth 11 (stdout w') "" = "Fetched 1 out of 2 images successfully.".
Proof.
  destruct (@main_summary CPython.lib (Sample.serve "PNG") Sample.utf8_console
              {| Console.typed := Ok "http://example.com/a.png,";
                 Console.mkdir := Ok tt |}
              (fun _ _ => eq_refl)
              "http://example.com/a.png," (init ∅) eq_refl)
    as (successful & total & w1 & w' & Hfetch & Hmain & Hout & _);
    [vm_compute; discriminate | reflexivity |].
  exists w'. split; [exact Hmain|]. rewrite Hout.
  assert (exists w1',
             @Console.fetch_images CPython.lib Console.default_download_dir
               (Sample.serve "PNG") Sample.utf8_console
               (inl (strip "http://example.com/a.png,")) (before_batch (init ∅))
             = Some (Ok (1, 2)%Z, w1')
             /\ List.length (stdout w1') = 11)
    as (w1' & Hfetch' & Hlen) by (eexists; split; vm_compute; reflexivity).
  rewrite Hfetch' in Hfetch. injection Hfetch as <- <- <-.
  rewrite app_nth2 by lia. rewrite Hlen. reflexivity.
Defined.

Lemma too_large_or_overflow_witness :
  @validate_image_response CPython.lib
    (Sample.response (Some "image/png")
       (Some (String.concat "" (List.repeat "9999999999" 33))) "")
  = Raise (OtherException "integer division result too large for a float").
Proof.
  apply (proj2 (too_large_or_overflow
                  (Sample.response (Some "image/png")
                     (Some (String.concat "" (List.repeat "9999999999" 33))) "")
                  (10 ^ 330 - 1)
                  ltac:(vm_compute; reflexivity)
                  ltac:(vm_compute; reflexivity)
                  ltac:(vm_compute; reflexivity))).
  vm_compute. discriminate.
Defined.
